(** * Export of a registered model: [mlflow_export_import/model/export_model.py]

  A shallow embedding of [ModelExporter] (constructor, [_normalize_stages],
  [export_model], [_export_model]), of the command [main] and of the Python
  string and list operations they rely on, followed by their properties.

  Conventions.
  - A Python [str] is a [string]: a sequence of 8-bit characters.  [lower]
    acts on the letters [A]-[Z]; comparison is by character code.
  - The MLflow client, the run exporter and the filesystem are collaborators
    outside this module.  They are a record of state-passing functions over
    an arbitrary world [W]: a call may change the world and may raise.
  - Everything observable is recorded in a trace: the lines printed and each
    collaborator call with its arguments and its outcome. *)

From Stdlib Require Import String Ascii List Bool Arith NArith Lia.
From Stdlib Require Import Sorting.Sorted Sorting.Permutation.
Import ListNotations.
Local Open Scope string_scope.
Local Open Scope list_scope.

(** ** Python strings *)

Module PyStr.

(** [c.lower()] for one character. *)
Definition lower_ascii (c : ascii) : ascii :=
  let n := nat_of_ascii c in
  if ((65 <=? n) && (n <=? 90))%nat then ascii_of_nat (n + 32) else c.

(** [s.lower()] *)
Fixpoint lower (s : string) : string :=
  match s with
  | EmptyString => EmptyString
  | String c s' => String (lower_ascii c) (lower s')
  end.

(** [s.startswith(p)] *)
Definition startswith (s p : string) : bool := String.prefix p s.

(** [s.endswith(p)] *)
Fixpoint endswith (s p : string) : bool :=
  (s =? p) ||
  match s with
  | EmptyString => false
  | String _ s' => endswith s' p
  end.

(** [sub in s] *)
Fixpoint contains (sub s : string) : bool :=
  String.prefix sub s ||
  match s with
  | EmptyString => false
  | String _ s' => contains sub s'
  end.

(** [x in l] for a list of strings. *)
Definition py_in (x : string) (l : list string) : bool :=
  existsb (String.eqb x) l.

(** [s.split(sep)] for a one-character separator: never the empty list. *)
Fixpoint split (sep : ascii) (s : string) : list string :=
  match s with
  | EmptyString => [EmptyString]
  | String c s' =>
      if Ascii.eqb c sep then EmptyString :: split sep s'
      else match split sep s' with
           | h :: t => String c h :: t
           | [] => [String c EmptyString]
           end
  end.

(** Drop the first [n] characters: [s[n:]]. *)
Fixpoint drop (n : nat) (s : string) : string :=
  match n, s with
  | O, _ => s
  | S _, EmptyString => EmptyString
  | S k, String _ s' => drop k s'
  end.

(** The scan behind [s.replace(old, new)] for a non-empty [old]: [skip]
    counts the characters of a match that are still to be passed over. *)
Fixpoint replace_scan (old new : string) (skip : nat) (s : string) : string :=
  match s with
  | EmptyString => EmptyString
  | String c s' =>
      match skip with
      | S k => replace_scan old new k s'
      | O =>
          if String.prefix old s
          then new ++ replace_scan old new (String.length old - 1) s'
          else String c (replace_scan old new 0 s')
      end
  end.

(** With an empty [old], [new] goes before every character and at the end. *)
Fixpoint intersperse (new s : string) : string :=
  match s with
  | EmptyString => new
  | String c s' => new ++ String c (intersperse new s')
  end.

(** [s.replace(old, new)]: every occurrence, leftmost first, no overlaps. *)
Definition replace (s old new : string) : string :=
  match old with
  | EmptyString => intersperse new s
  | String _ _ => replace_scan old new 0 s
  end.

(** [os.path.join(a, b)] of [posixpath], two components. *)
Definition join (a b : string) : string :=
  if startswith b "/" then b
  else if (a =? "") || endswith a "/" then a ++ b
  else a ++ "/" ++ b.

(** [list.sort(key=...)] on string keys: stable, ascending under [<]. *)
Section Sort.
Context {A : Type} (key : A -> string).

Fixpoint insert_sorted (x : A) (l : list A) : list A :=
    match l with
    | [] => [x]
    | y :: l' =>
        if String.ltb (key y) (key x) then y :: insert_sorted x l'
        else x :: l
    end.

Definition sort (l : list A) : list A :=
    fold_right insert_sorted [] l.
End Sort.

End PyStr.

(** ** Data model *)

(** Instances of [Exception], as far as the exporter tells them apart: the
    client's [mlflow.exceptions.RestException] (carrying [str(e)]), this
    package's [MlflowExportImportException] (carrying the two filters its
    message is formatted from), and an instance of any other class. *)
Inductive exn : Type :=
| RestException (msg : string)
| MlflowExportImportException (stages versions : list string)
| OtherException (msg : string).

Inductive result (A : Type) : Type :=
| Ok (a : A)
| Raise (e : exn).
Arguments Ok {A} a.
Arguments Raise {A} e.

(** A model version entity as the registry returns it.  [extra] stands for
    the attributes the exporter never reads (name, source, status, ...). *)
Record ModelVersion : Type := {
  version : string;
  current_stage : string;
  run_id : string;
  description : string;
  tags : list (string * string);
  extra : list (string * string)
}.

Record RunInfo : Type := {
  artifact_uri : string;
  experiment_id : string
}.

Record Run : Type := { info : RunInfo }.

Record Experiment : Type := { name : string }.

(** The dictionary [dct] appended to the manifest (line 67). *)
Record VersionRecord : Type := {
  dct_version : string;
  dct_stage : string;
  dct_run_id : string;
  dct_description : string;
  dct_tags : list (string * string)
}.

(** The dictionary appended to [output_versions]: [dict(vr)] and two keys. *)
Record ExportedVersion : Type := {
  vr_dict : ModelVersion;
  _run_artifact_uri : string;
  _experiment_name : string
}.

(** [x["version"]], the sort key of line 86. *)
Definition version_key (x : ExportedVersion) : string := version (vr_dict x).

(** The way the [stages] argument of the constructor can be given. *)
Inductive StagesArg : Type :=
| StagesNone
| StagesStr (s : string)
| StagesList (l : list string).

(** The attributes of a [ModelExporter] that the export reads.  The client
    and the run exporter are collaborators (see [Api]). *)
Record ModelExporter : Type := {
  stages : list string;
  export_run : bool;
  versions : list string
}.

(** Modelled from the spec: the canonical stage table of mlflow's
    [model_version_stages], which is not under src/; its values are those of
    the constructor's docstring (Production, Staging, Archived and None). *)
Definition ALL_STAGES : list string := ["None"; "Staging"; "Production"; "Archived"].

Definition _CANONICAL_MAPPING : list (string * string) :=
  map (fun stage => (PyStr.lower stage, stage)) ALL_STAGES.

Section Exporter.

(** The world of the collaborators, the filesystem handle, the registered
    model entity, its JSON form and the result of [create_export_info]. *)
Context {W Fs RegisteredModel Json Info : Type}.

Record ExportInfo : Type := {
  created : Info;
  num_target_stages : nat;
  num_target_versions : nat;
  num_src_versions : nat;
  num_dst_versions : nat
}.

(** The document written to [model.json]. *)
Record Document : Type := {
  registered_model : Json;
  latest_versions : list ExportedVersion;
  export_info : ExportInfo
}.

(** The lines the exporter prints. *)
Inductive Line : Type :=
| WarningStage (stage : string)
| FoundVersions (n : nat) (model_name : string)
| Exporting (dct : VersionRecord)
| WarningRunDoesNotExist (version : string) (e : exn)
| Traceback (e : exn)
| ExportedVersions (exported total : nat) (model_name : string)
| Error (e : exn).

(** The trace: printed lines and collaborator calls with their outcome. *)
Inductive Event : Type :=
| Printed (l : Line)
| GetFilesystem (output_dir : string) (r : result Fs)
| Mkdirs (path : string) (r : result unit)
| SearchModelVersions (filter : string) (r : result (list ModelVersion))
| ExportRun (run_id opath : string) (r : result unit)
| GetRun (run_id : string) (r : result Run)
| GetExperiment (experiment_id : string) (r : result Experiment)
| GetRegisteredModel (model_name : string) (r : result RegisteredModel)
| CreateExportInfo (r : result Info)
| WriteJsonFile (path : string) (doc : Document) (r : result unit).

(** The collaborators. *)
Record Api : Type := {
  get_filesystem : string -> W -> result Fs * W;
  mkdirs : Fs -> string -> W -> result unit * W;
  search_model_versions : string -> W -> result (list ModelVersion) * W;
  run_exporter_export_run : string -> string -> W -> result unit * W;
  get_run : string -> W -> result Run * W;
  get_experiment : string -> W -> result Experiment * W;
  get_registered_model : string -> W -> result RegisteredModel * W;
  message_to_json : RegisteredModel -> Json;
  create_export_info : W -> result Info * W;
  write_json_file : Fs -> string -> Document -> W -> result unit * W
}.

(** ** Computations: world passing, exceptions and the trace *)

Definition M (A : Type) : Type := W -> result A * W * list Event.

Definition ret {A : Type} (a : A) : M A := fun w => (Ok a, w, []).

Definition bind {A B : Type} (m : M A) (f : A -> M B) : M B :=
  fun w =>
    match m w with
    | (Ok a, w1, t1) =>
        match f a w1 with
        | (r, w2, t2) => (r, w2, t1 ++ t2)
        end
    | (Raise e, w1, t1) => (Raise e, w1, t1)
    end.

Definition print (l : Line) : M unit := fun w => (Ok tt, w, [Printed l]).

(** A collaborator call, recorded with its outcome. *)
Definition call {A : Type} (op : W -> result A * W) (ev : result A -> Event) : M A :=
  fun w => match op w with (r, w1) => (r, w1, [ev r]) end.

(** [try: m except <class> as e: h e]; [h e = None] when [e] is not of the
    class the clause names, and then [e] propagates. *)
Definition try_except {A : Type} (m : M A) (h : exn -> option (M A)) : M A :=
  fun w =>
    match m w with
    | (Ok a, w1, t1) => (Ok a, w1, t1)
    | (Raise e, w1, t1) =>
        match h e with
        | Some k => match k w1 with (r, w2, t2) => (r, w2, t1 ++ t2) end
        | None => (Raise e, w1, t1)
        end
    end.

Notation "x <- m ;; k" := (bind m (fun x => k))
  (at level 100, m at next level, right associativity).
Notation "m ;;; k" := (bind m (fun _ => k))
  (at level 100, right associativity).

Variable api : Api.

(** ** [ModelExporter._export_model] *)

(** The state of the loop of lines 59-85. *)
Record Acc : Type := {
  manifest : list VersionRecord;
  output_versions : list ExportedVersion;
  exported_versions : nat
}.

(** Lines 60-63: [true] when neither [continue] is taken. *)
Definition selected (self : ModelExporter) (vr : ModelVersion) : bool :=
  negb ((0 <? length (stages self))%nat
        && negb (PyStr.py_in (PyStr.lower (current_stage vr)) (stages self)))
  && negb ((0 <? length (versions self))%nat
           && negb (PyStr.py_in (version vr) (versions self))).

(** Lines 65-66. *)
Definition opath (output_dir run_id : string) : string :=
  PyStr.replace (PyStr.join output_dir run_id) "dbfs:" "/dbfs".

(** Line 67. *)
Definition dct_of (vr : ModelVersion) : VersionRecord :=
  {| dct_version := version vr;
     dct_stage := current_stage vr;
     dct_run_id := run_id vr;
     dct_description := description vr;
     dct_tags := tags vr |}.

(** Line 81. *)
Definition run_does_not_exist (msg : string) : bool :=
  PyStr.contains "RESOURCE_DOES_NOT_EXIST: Run" msg.

(** Lines 70-79: the body of the [try]. *)
Definition try_body (self : ModelExporter) (output_dir : string)
    (vr : ModelVersion) (acc : Acc) : M Acc :=
  (if export_run self
   then call (run_exporter_export_run api (run_id vr) (opath output_dir (run_id vr)))
             (ExportRun (run_id vr) (opath output_dir (run_id vr)))
   else ret tt) ;;;
  run <- call (get_run api (run_id vr)) (GetRun (run_id vr)) ;;
  experiment <- call (get_experiment api (experiment_id (info run)))
                     (GetExperiment (experiment_id (info run))) ;;
  ret {| manifest := manifest acc;
         output_versions :=
           output_versions acc ++
           [{| vr_dict := vr;
               _run_artifact_uri := artifact_uri (info run);
               _experiment_name := name experiment |}];
         exported_versions := exported_versions acc + 1 |}.

(** Lines 80-85: the [except mlflow.exceptions.RestException] clause. *)
Definition except_rest (vr : ModelVersion) (acc : Acc) (e : exn) : option (M Acc) :=
  match e with
  | RestException msg =>
      Some (if run_does_not_exist msg
            then print (WarningRunDoesNotExist (version vr) e) ;;; ret acc
            else print (Traceback e) ;;; ret acc)
  | _ => None
  end.

(** Lines 60-85: one iteration of the loop. *)
Definition export_version (self : ModelExporter) (output_dir : string)
    (vr : ModelVersion) (acc : Acc) : M Acc :=
  if selected self vr then
    print (Exporting (dct_of vr)) ;;;
    let acc1 := {| manifest := manifest acc ++ [dct_of vr];
                   output_versions := output_versions acc;
                   exported_versions := exported_versions acc |} in
    try_except (try_body self output_dir vr acc1) (except_rest vr acc1)
  else ret acc.

(** Lines 59-85: [for vr in versions]. *)
Fixpoint for_versions (self : ModelExporter) (output_dir : string)
    (vs : list ModelVersion) (acc : Acc) : M Acc :=
  match vs with
  | [] => ret acc
  | vr :: rest =>
      acc1 <- export_version self output_dir vr acc ;;
      for_versions self output_dir rest acc1
  end.

(** Lines 54, 57 and 58: the accumulators before the loop. *)
Definition acc0 : Acc :=
  {| manifest := []; output_versions := []; exported_versions := 0 |}.

(** Lines 86-102: the document, from the registry response [vs], the
    accumulators after the loop, the model's JSON and the export metadata. *)
Definition document (self : ModelExporter) (vs : list ModelVersion) (acc : Acc)
    (model : Json) (created_info : Info) : Document :=
  let sorted_versions := PyStr.sort version_key (output_versions acc) in
  {| registered_model := model;
     latest_versions := sorted_versions;
     export_info :=
       {| created := created_info;
          num_target_stages := length (stages self);
          num_target_versions := length (versions self);
          num_src_versions := length vs;
          num_dst_versions := length sorted_versions |} |}.

(** Lines 50-107. *)
Definition _export_model (self : ModelExporter) (model_name output_dir : string)
    : M (list VersionRecord) :=
  fs <- call (get_filesystem api output_dir) (GetFilesystem output_dir) ;;
  call (mkdirs api fs output_dir) (Mkdirs output_dir) ;;;
  vs <- call (search_model_versions api ("name='" ++ model_name ++ "'"))
             (SearchModelVersions ("name='" ++ model_name ++ "'")) ;;
  print (FoundVersions (length vs) model_name) ;;;
  acc <- for_versions self output_dir vs acc0 ;;
  model_obj <- call (get_registered_model api model_name)
                    (GetRegisteredModel model_name) ;;
  let model := message_to_json api model_obj in
  created_info <- call (create_export_info api) CreateExportInfo ;;
  let doc := document self vs acc model created_info in
  print (ExportedVersions (exported_versions acc)
                          (length (latest_versions doc)) model_name) ;;;
  let path := PyStr.join output_dir "model.json" in
  call (write_json_file api fs path doc) (WriteJsonFile path doc) ;;;
  ret (manifest acc).

(** Lines 36-47. *)
Definition export_model (self : ModelExporter) (model_name output_dir : string)
    : M (bool * string) :=
  try_except
    (_export_model self model_name output_dir ;;; ret (true, model_name))
    (fun e => Some (print (Error e) ;;; ret (false, model_name))).

End Exporter.

(** ** [ModelExporter.__init__] and [ModelExporter._normalize_stages] *)

(** Lines 110-120: the normalized filter and the warnings printed. *)
Definition _normalize_stages (stages : StagesArg) : list Line * list string :=
  match stages with
  | StagesNone => ([], [])
  | StagesStr s =>
      let stages := map PyStr.lower (PyStr.split "," s) in
      (map WarningStage
         (filter (fun stage => negb (PyStr.py_in stage (map fst _CANONICAL_MAPPING))) stages),
       stages)
  | StagesList l =>
      let stages := map PyStr.lower l in
      (map WarningStage
         (filter (fun stage => negb (PyStr.py_in stage (map fst _CANONICAL_MAPPING))) stages),
       stages)
  end.

(** Line 30: [versions if versions else []]. *)
Definition versions_or_empty (versions : option (list string)) : list string :=
  match versions with
  | Some l => l
  | None => []
  end.

(** Lines 18-33.  [export_source_tags] and [notebook_formats] only configure
    the run exporter, a collaborator, and are left out. *)
Definition __init__ (stages : StagesArg) (versions : option (list string))
    (export_run : bool) : list Line * result ModelExporter :=
  let (out, self_stages) := _normalize_stages stages in
  let self_versions := versions_or_empty versions in
  if ((0 <? length self_stages) && (0 <? length self_versions))%nat
  then (out, Raise (MlflowExportImportException self_stages self_versions))
  else (out, Ok {| stages := self_stages;
                   export_run := export_run;
                   versions := self_versions |}).

(** ** Reading a list and a trace *)

(** Ascending order of the keys [key a] and [key b], as strings. *)
Definition key_le {A : Type} (key : A -> string) (a b : A) : Prop :=
  String.leb (key a) (key b) = true.

Section Trace.

Context {W Fs RegisteredModel Json Info : Type}.
Abbreviation Ev := (@Event Fs RegisteredModel Json Info).

Definition exn_of {A : Type} (r : result A) : option exn :=
  match r with
  | Ok _ => None
  | Raise e => Some e
  end.

(** The outcome and the trace of a run. *)
Definition outcome {A : Type} (run : result A * W * list Ev) : result A :=
  fst (fst run).

Definition trace {A : Type} (run : result A * W * list Ev) : list Ev :=
  snd run.

(** The documents handed to [write_json_file] in a trace. *)
Definition written (t : list Ev) : list (@Document Json Info) :=
  flat_map (fun ev => match ev with
                      | WriteJsonFile _ doc _ => [doc]
                      | _ => []
                      end) t.

(** The exception a recorded call ended with, if any. *)
Definition failure (ev : Ev) : option exn :=
  match ev with
  | Printed _ => None
  | GetFilesystem _ r => exn_of r
  | Mkdirs _ r => exn_of r
  | SearchModelVersions _ r => exn_of r
  | ExportRun _ _ r => exn_of r
  | GetRun _ r => exn_of r
  | GetExperiment _ r => exn_of r
  | GetRegisteredModel _ r => exn_of r
  | CreateExportInfo r => exn_of r
  | WriteJsonFile _ _ r => exn_of r
  end.

(** The calls made inside the [try] of lines 70-79. *)
Definition in_try (ev : Ev) : bool :=
  match ev with
  | ExportRun _ _ _ | GetRun _ _ | GetExperiment _ _ => true
  | _ => false
  end.

(** Events of the loop: prints and the calls of the [try]. *)
Definition loop_event (ev : Ev) : bool :=
  match ev with
  | Printed _ => true
  | _ => in_try ev
  end.

(** A call that succeeded, or failed inside the [try] with a
    [RestException]. *)
Definition rest_only (ev : Ev) : bool :=
  match failure ev with
  | None => true
  | Some (RestException _) => in_try ev
  | Some _ => false
  end.

(** A call that succeeded, or a [get_run] that failed with a
    [RestException] whose text has [RESOURCE_DOES_NOT_EXIST: Run]. *)
Definition run_not_found_only (ev : Ev) : bool :=
  match ev with
  | GetRun _ (Raise (RestException msg)) => run_does_not_exist msg
  | _ => match failure ev with None => true | Some _ => false end
  end.

Definition is_rest_failure (p : string -> bool) (ev : Ev) : bool :=
  match failure ev with
  | Some (RestException msg) => p msg
  | _ => false
  end.

Definition run_not_found_failures (t : list Ev) : nat :=
  length (filter (is_rest_failure run_does_not_exist) t).

Definition other_rest_failures (t : list Ev) : nat :=
  length (filter (is_rest_failure (fun msg => negb (run_does_not_exist msg))) t).

Definition is_warning (ev : Ev) : bool :=
  match ev with
  | Printed (WarningRunDoesNotExist _ _) => true
  | _ => false
  end.

Definition is_traceback (ev : Ev) : bool :=
  match ev with
  | Printed (Traceback _) => true
  | _ => false
  end.

Definition warnings (t : list Ev) : nat := length (filter is_warning t).

Definition tracebacks (t : list Ev) : nat := length (filter is_traceback t).

(** The entry [x] of the output sequence comes from lookups that succeeded
    in the trace [t]: its run and the experiment of that run. *)
Definition looked_up (t : list Ev) (x : ExportedVersion) : Prop :=
  exists run experiment,
    In (GetRun (run_id (vr_dict x)) (Ok run)) t /\
    In (GetExperiment (experiment_id (info run)) (Ok experiment)) t /\
    _run_artifact_uri x = artifact_uri (info run) /\
    _experiment_name x = name experiment.

(** Case-insensitive membership of a stage in a filter. *)
Definition stage_matches (filter : list string) (stage : string) : bool :=
  existsb (fun f => PyStr.lower f =? PyStr.lower stage) filter.

End Trace.

(** ** Registries for the scenarios *)

Module Scenario.

Definition mv (v stage rid : string) : ModelVersion :=
  {| version := v; current_stage := stage; run_id := rid;
     description := ""; tags := []; extra := [] |}.

Definition a_run (rid : string) : Run :=
  {| info := {| artifact_uri := "s3://artifacts/" ++ rid; experiment_id := "7" |} |}.

(** A registry without state: [vs] are the versions of every model, [runs]
    answers [get_run], [exports] answers the run exporter and [dirs] answers
    [mkdirs]; every other call succeeds. *)
Definition registry (vs : list ModelVersion) (runs : string -> result Run)
    (exports : string -> result unit) (dirs : result unit)
    : @Api unit unit unit unit unit :=
  {| get_filesystem := fun _ w => (Ok tt, w);
     mkdirs := fun _ _ w => (dirs, w);
     search_model_versions := fun _ w => (Ok vs, w);
     run_exporter_export_run := fun rid _ w => (exports rid, w);
     get_run := fun rid w => (runs rid, w);
     get_experiment := fun _ w => (Ok {| name := "exp" |}, w);
     get_registered_model := fun _ w => (Ok tt, w);
     message_to_json := fun m => m;
     create_export_info := fun w => (Ok tt, w);
     write_json_file := fun _ _ _ w => (Ok tt, w) |}.

Definition all_runs (rid : string) : result Run := Ok (a_run rid).

Definition all_exports (rid : string) : result unit := Ok tt.

(** [get_run] fails for run [r3] only, the way the REST client reports a
    deleted run. *)
Definition r3_deleted (rid : string) : result Run :=
  if rid =? "r3"
  then Raise (RestException "RESOURCE_DOES_NOT_EXIST: Run 'r3' not found")
  else Ok (a_run rid).

(** [get_run] fails for run [r1] with a REST error of another kind. *)
Definition r1_denied (rid : string) : result Run :=
  if rid =? "r1"
  then Raise (RestException "PERMISSION_DENIED: no access to run 'r1'")
  else Ok (a_run rid).

(** The run exporter fails for run [r1] with an error that is not a
    [RestException]. *)
Definition r1_unwritable (rid : string) : result unit :=
  if rid =? "r1"
  then Raise (OtherException "[Errno 28] No space left on device")
  else Ok tt.

Definition two_stages : list ModelVersion :=
  [mv "1" "Production" "r1"; mv "2" "Archived" "r2"].

Definition three_versions : list ModelVersion :=
  [mv "1" "None" "r1"; mv "2" "None" "r2"; mv "3" "None" "r3"].

Definition ten_and_two : list ModelVersion :=
  [mv "2" "None" "r2"; mv "10" "None" "r10"].

Definition all_versions : ModelExporter :=
  {| stages := []; export_run := true; versions := [] |}.

Definition production_only : ModelExporter :=
  {| stages := ["production"]; export_run := true; versions := [] |}.

(** The entry of the output sequence for a version whose run was found. *)
Definition exported (v stage rid : string) : ExportedVersion :=
  {| vr_dict := mv v stage rid;
     _run_artifact_uri := "s3://artifacts/" ++ rid;
     _experiment_name := "exp" |}.

Definition doc_of (n_stages n_src : nat) (l : list ExportedVersion)
    : @Document unit unit :=
  {| registered_model := tt;
     latest_versions := l;
     export_info :=
       {| created := tt;
          num_target_stages := n_stages;
          num_target_versions := 0;
          num_src_versions := n_src;
          num_dst_versions := length l |} |}.

(** Two versions, one in production, exported with [stages=["production"]]. *)
Definition stage_run :=
  export_model (registry two_stages all_runs all_exports (Ok tt))
    production_only "M" "out" tt.

(** Three versions; the run of version 3 is gone. *)
Definition deleted_api := registry three_versions r3_deleted all_exports (Ok tt).

Definition deleted_run := export_model deleted_api all_versions "M" "out" tt.

(** Three versions; [get_run] is refused for version 1. *)
Definition denied_run :=
  export_model (registry three_versions r1_denied all_exports (Ok tt))
    all_versions "M" "out" tt.

(** Three versions; the run exporter cannot write the run of version 1. *)
Definition unwritable_run :=
  export_model (registry three_versions all_runs r1_unwritable (Ok tt))
    all_versions "M" "out" tt.

(** Versions 2 and 10. *)
Definition ten_run :=
  export_model (registry ten_and_two all_runs all_exports (Ok tt))
    all_versions "M" "out" tt.

(** The output directory cannot be created. *)
Definition no_dir_api :=
  registry three_versions all_runs all_exports
    (Raise (OtherException "[Errno 13] Permission denied: 'out'")).

End Scenario.
(** ** The command line ([main], lines 156-163) *)

(** [f"{v}"] for a [bool] and for an option that click leaves at [None]. *)
Definition str_bool (b : bool) : string := if b then "True" else "False".

Definition str_option (o : option string) : string :=
  match o with
  | Some s => s
  | None => "None"
  end.

(** The [stages] option as the constructor receives it. *)
Definition stages_option (stages : option string) : StagesArg :=
  match stages with
  | Some s => StagesStr s
  | None => StagesNone
  end.

(** Line 161: [versions.split(",") if versions else []]; [None] and the
    empty string are both false. *)
Definition versions_option (versions : option string) : list string :=
  match versions with
  | Some (String c s) => PyStr.split "," (String c s)
  | _ => []
  end.

Section Cli.

Context {W Fs RegisteredModel Json Info : Type}.

(** What [main] builds before the export: the client (line 160), the list of
    notebook formats ([utils.string_to_list], line 162) and, inside the
    constructor, the run exporter (line 27).  All three are collaborators:
    each may change the world and may raise. *)
Record Setup : Type := {
  MlflowClient : W -> result unit * W;
  string_to_list : string -> W -> result (list string) * W;
  RunExporter : bool -> list string -> W -> result unit * W
}.

(** The trace of [main]: its own lines and calls, the lines of the
    constructor and the events of the export. *)
Inductive CliEvent : Type :=
| OptionsHeader
| OptionLine (k v : string)
| NewClient (r : result unit)
| StringToList (s : string) (r : result (list string))
| NewRunExporter (export_source_tags : bool) (notebook_formats : list string)
    (r : result unit)
| Constructing (l : @Line)
| Exported (ev : @Event Fs RegisteredModel Json Info).

Definition CM (A : Type) : Type := W -> result A * W * list CliEvent.

Definition cli_ret {A : Type} (a : A) : CM A := fun w => (Ok a, w, []).

Definition cli_raise {A : Type} (e : exn) : CM A := fun w => (Raise e, w, []).

Definition cli_bind {A B : Type} (m : CM A) (f : A -> CM B) : CM B :=
  fun w =>
    match m w with
    | (Ok a, w1, t1) =>
        match f a w1 with
        | (r, w2, t2) => (r, w2, t1 ++ t2)
        end
    | (Raise e, w1, t1) => (Raise e, w1, t1)
    end.

Definition cli_print (l : list CliEvent) : CM unit := fun w => (Ok tt, w, l).

Definition cli_call {A : Type} (op : W -> result A * W) (ev : result A -> CliEvent)
    : CM A :=
  fun w => match op w with (r, w1) => (r, w1, [ev r]) end.

(** A computation of the exporter, run inside [main]. *)
Definition exporting {A : Type} (m : @M W Fs RegisteredModel Json Info A) : CM A :=
  fun w => match m w with (r, w1, t) => (r, w1, map Exported t) end.

Variable setup : Setup.
Variable api : @Api W Fs RegisteredModel Json Info.

(** Lines 157-159: the parameters, in the order of [locals()]. *)
Definition option_lines (model output_dir : string) (export_source_tags : bool)
    (notebook_formats : string) (stages versions : option string)
    : list CliEvent :=
  [OptionsHeader;
   OptionLine "model" model;
   OptionLine "output_dir" output_dir;
   OptionLine "export_source_tags" (str_bool export_source_tags);
   OptionLine "notebook_formats" notebook_formats;
   OptionLine "stages" (str_option stages);
   OptionLine "versions" (str_option versions)].

(** Line 162: [ModelExporter(...)], with [export_run] at its default.  The
    run exporter is built first (line 27), then the filters are normalized
    and checked (lines 28-32). *)
Definition construct (export_source_tags : bool) (formats : list string)
    (stages : option string) (versions : list string) : CM ModelExporter :=
  cli_bind (cli_call (RunExporter setup export_source_tags formats)
                     (NewRunExporter export_source_tags formats)) (fun _ =>
  let (out, r) := __init__ (stages_option stages) (Some versions) true in
  cli_bind (cli_print (map Constructing out)) (fun _ =>
  match r with
  | Ok exporter => cli_ret exporter
  | Raise e => cli_raise e
  end)).

(** Lines 156-163.  The result of [export_model] is dropped. *)
Definition main (model output_dir : string) (export_source_tags : bool)
    (notebook_formats : string) (stages versions : option string) : CM unit :=
  cli_bind (cli_print (option_lines model output_dir export_source_tags
                         notebook_formats stages versions)) (fun _ =>
  cli_bind (cli_call (MlflowClient setup) NewClient) (fun _ =>
  let versions := versions_option versions in
  cli_bind (cli_call (string_to_list setup notebook_formats)
                     (StringToList notebook_formats)) (fun formats =>
  cli_bind (construct export_source_tags formats stages versions) (fun exporter =>
  cli_bind (exporting (export_model api exporter model output_dir)) (fun _ =>
  cli_ret tt))))).

(** The outcome and the trace of a run of [main]. *)
Definition cli_outcome {A : Type} (run : result A * W * list CliEvent) : result A :=
  fst (fst run).

Definition cli_trace {A : Type} (run : result A * W * list CliEvent)
    : list CliEvent :=
  snd run.

(** The events of the export in a trace of [main]. *)
Definition export_events (t : list CliEvent)
    : list (@Event Fs RegisteredModel Json Info) :=
  flat_map (fun ev => match ev with
                      | Exported e => [e]
                      | _ => []
                      end) t.

End Cli.

(** ** Runs without a failed call *)

Section Clean.

Context {Fs RegisteredModel Json Info : Type}.

(** A printed line, or a call that returned. *)
Definition returned (ev : @Event Fs RegisteredModel Json Info) : bool :=
  match failure ev with
  | None => true
  | Some _ => false
  end.

(** The records of the [Exporting: ...] lines of a trace (line 68). *)
Definition exporting_lines (t : list (@Event Fs RegisteredModel Json Info))
    : list VersionRecord :=
  flat_map (fun ev => match ev with
                      | Printed (Exporting dct) => [dct]
                      | _ => []
                      end) t.

(** What a call of the [try] of lines 70-79 is about, for the version [vr]
    in a trace [t]: the run exporter gets the run of [vr] and the path of
    lines 65-66, [get_run] gets the run of [vr], and [get_experiment] gets
    the experiment of a run that [get_run] returned for [vr]. *)
Definition call_of (export_run_flag : bool) (output_dir : string)
    (vr : ModelVersion) (t : list (@Event Fs RegisteredModel Json Info))
    (ev : @Event Fs RegisteredModel Json Info) : Prop :=
  match ev with
  | ExportRun rid path _ =>
      export_run_flag = true /\ rid = run_id vr /\
      path = opath output_dir (run_id vr)
  | GetRun rid _ => rid = run_id vr
  | GetExperiment eid _ =>
      exists run, In (GetRun (run_id vr) (Ok run)) t /\
                  eid = experiment_id (info run)
  | _ => True
  end.

End Clean.

(** ** More scenarios *)

Module Cases.

Import Scenario.

(** Every collaborator of the setup returns; no notebook format is asked
    for. *)
Definition plain_setup : @Setup unit :=
  {| MlflowClient := fun w => (Ok tt, w);
     string_to_list := fun _ w => (Ok [], w);
     RunExporter := fun _ _ w => (Ok tt, w) |}.

Definition plain_api := registry three_versions all_runs all_exports (Ok tt).

(** An exporter that does not export the runs. *)
Definition no_runs : ModelExporter :=
  {| stages := []; export_run := false; versions := [] |}.

Definition no_runs_run := export_model plain_api no_runs "M" "out" tt.

(** An exporter for versions 1 and 3. *)
Definition versions_1_3 : ModelExporter :=
  {| stages := []; export_run := true; versions := ["1"; "3"] |}.

Definition versions_run := export_model plain_api versions_1_3 "M" "out" tt.

Definition doc_1_3 : @Document unit unit :=
  {| registered_model := tt;
     latest_versions := [exported "1" "None" "r1"; exported "3" "None" "r3"];
     export_info :=
       {| created := tt;
          num_target_stages := 0;
          num_target_versions := 2;
          num_src_versions := 3;
          num_dst_versions := 2 |} |}.

(** The production version, exported under a DBFS directory. *)
Definition dbfs_run :=
  export_model (registry two_stages all_runs all_exports (Ok tt))
    production_only "M" "dbfs:/models" tt.

(** A response in which two versions carry the identifier 1. *)
Definition twins : list ModelVersion :=
  [mv "2" "None" "r2"; mv "1" "Staging" "ra"; mv "1" "Production" "rb"].

Definition twins_run :=
  export_model (registry twins all_runs all_exports (Ok tt))
    all_versions "M" "out" tt.

Definition twins_doc : @Document unit unit :=
  doc_of 0 3 [exported "1" "Staging" "ra"; exported "1" "Production" "rb";
              exported "2" "None" "r2"].

(** The document of the run in which the run of version 3 is gone. *)
Definition deleted_doc : @Document unit unit :=
  doc_of 0 3 [exported "1" "None" "r1"; exported "2" "None" "r2"].

(** [main] for a model whose output directory cannot be created. *)
Definition failing_main :=
  main plain_setup no_dir_api "M" "out" false "" None None tt.

(** [main] with both [--stages] and [--versions]. *)
Definition conflicting_main :=
  main plain_setup plain_api "M" "out" false "" (Some "Production") (Some "1,2") tt.

End Cases.


(** * Properties *)

(** ** Strings *)

Section StringFacts.

Lemma prefix_iff (p s : string) :
  String.prefix p s = true <-> exists r, s = (p ++ r)%string.
Proof.
  revert s. induction p as [|a p IH]; intros s.
  - destruct s; simpl; split; eauto.
  - destruct s as [|b s]; simpl.
    + split; [discriminate | intros [r Hr]; discriminate].
    + destruct (ascii_dec a b) as [->|Hab].
      * rewrite IH. split; intros [r Hr]; exists r; congruence.
      * split; [discriminate | intros [r Hr]; congruence].
Qed.

Lemma prefix_append (p s x : string) :
  String.prefix p s = true -> String.prefix p (s ++ x) = true.
Proof.
  rewrite !prefix_iff. intros [r ->]. exists (r ++ x)%string.
  clear. induction p; simpl; congruence.
Qed.

Lemma append_assoc (a b c : string) : ((a ++ b) ++ c = a ++ (b ++ c))%string.
Proof. induction a; simpl; congruence. Qed.

Lemma append_empty_r (a : string) : (a ++ "")%string = a.
Proof. induction a; simpl; congruence. Qed.

Lemma length_append (a b : string) :
  String.length (a ++ b) = String.length a + String.length b.
Proof. induction a; simpl; congruence. Qed.

Lemma replace_scan_skip (old new : string) (k : nat) (s : string) :
  PyStr.replace_scan old new k s = PyStr.replace_scan old new 0 (PyStr.drop k s).
Proof.
  revert k. induction s as [|c s IH]; intros [|k]; simpl; auto.
Qed.

(** The rewriting of line 66, one step at a time. *)
Lemma replace_dbfs_step (c : ascii) (s : string) :
  PyStr.replace (String c s) "dbfs:" "/dbfs" =
  if String.prefix "dbfs:" (String c s)
  then ("/dbfs" ++ PyStr.replace (PyStr.drop 4 s) "dbfs:" "/dbfs")%string
  else String c (PyStr.replace s "dbfs:" "/dbfs").
Proof.
  unfold PyStr.replace.
  change (PyStr.replace_scan "dbfs:" "/dbfs" 0 (String c s))
    with (if String.prefix "dbfs:" (String c s)
          then ("/dbfs" ++ PyStr.replace_scan "dbfs:" "/dbfs" 4 s)%string
          else String c (PyStr.replace_scan "dbfs:" "/dbfs" 0 s)).
  rewrite (replace_scan_skip _ _ 4). reflexivity.
Qed.

Lemma replace_dbfs_prefix (r : string) :
  PyStr.replace ("dbfs:" ++ r) "dbfs:" "/dbfs" =
  ("/dbfs" ++ PyStr.replace r "dbfs:" "/dbfs")%string.
Proof.
  change ("dbfs:" ++ r)%string with (String "d" ("bfs:" ++ r)).
  rewrite replace_dbfs_step.
  replace (String.prefix "dbfs:" (String "d" ("bfs:" ++ r))) with true.
  - reflexivity.
  - symmetry. apply prefix_iff. exists r. reflexivity.
Qed.

(** An occurrence of [dbfs:] cannot start inside the part before another
    one and run into it: the word has no border. *)
Lemma dbfs_no_straddle (p q r : string) :
  (p ++ "dbfs:" ++ q = "dbfs:" ++ r)%string ->
  p = "" \/ exists p', p = ("dbfs:" ++ p')%string.
Proof.
  intros H.
  destruct p as [|c1 p]; [now left|right].
  destruct p as [|c2 p]; [simpl in H; congruence|].
  destruct p as [|c3 p]; [simpl in H; congruence|].
  destruct p as [|c4 p]; [simpl in H; congruence|].
  destruct p as [|c5 p]; [simpl in H; congruence|].
  simpl in H. exists p. simpl. congruence.
Qed.

Lemma replace_dbfs_app (p q : string) :
  PyStr.replace (p ++ "dbfs:" ++ q) "dbfs:" "/dbfs" =
  (PyStr.replace p "dbfs:" "/dbfs" ++ "/dbfs" ++ PyStr.replace q "dbfs:" "/dbfs")%string.
Proof.
  remember (String.length p) as n eqn:Hn.
  revert p Hn. induction n as [n IH] using lt_wf_ind. intros p Hn.
  destruct p as [|c p].
  - apply replace_dbfs_prefix.
  - change (String c p ++ "dbfs:" ++ q)%string with (String c (p ++ "dbfs:" ++ q)).
    rewrite replace_dbfs_step.
    destruct (String.prefix "dbfs:" (String c (p ++ "dbfs:" ++ q))) eqn:Hpre.
    + apply prefix_iff in Hpre. destruct Hpre as [r Hr].
      destruct (dbfs_no_straddle (String c p) q r Hr) as [Hp|[p' Hp]];
        [discriminate|].
      rewrite Hp. rewrite replace_dbfs_prefix.
      injection Hp as _ Hp. subst p.
      change (PyStr.drop 4 (String "b" (String "f" (String "s" (String ":" p')))
                            ++ "dbfs:" ++ q))
        with (p' ++ "dbfs:" ++ q)%string.
      rewrite (IH (String.length p')); [|simpl in Hn; lia|reflexivity].
      rewrite append_assoc. reflexivity.
    + rewrite replace_dbfs_step.
      destruct (String.prefix "dbfs:" (String c p)) eqn:Hpre'.
      * apply (prefix_append _ _ ("dbfs:" ++ q)) in Hpre'.
        simpl in Hpre', Hpre. congruence.
      * rewrite (IH (String.length p)); [|simpl in Hn; lia|reflexivity].
        reflexivity.
Qed.

End StringFacts.

(** ** Sorting by a string key *)

Section SortFacts.

Context {A : Type} (key : A -> string).

Lemma string_compare_le_trans (a b c : string) :
  String.compare a b <> Gt -> String.compare b c <> Gt -> String.compare a c <> Gt.
Proof.
  revert b c. induction a as [|x a IH]; intros [|y b] [|z c]; simpl;
    try congruence.
  unfold Ascii.compare.
  destruct (N.compare_spec (N_of_ascii x) (N_of_ascii y)) as [Hxy|Hxy|Hxy];
    destruct (N.compare_spec (N_of_ascii y) (N_of_ascii z)) as [Hyz|Hyz|Hyz];
    destruct (N.compare_spec (N_of_ascii x) (N_of_ascii z)) as [Hxz|Hxz|Hxz];
    try congruence; try lia.
  apply IH.
Qed.

Lemma leb_trans (a b c : string) :
  String.leb a b = true -> String.leb b c = true -> String.leb a c = true.
Proof.
  unfold String.leb. intros Hab Hbc.
  assert (H : String.compare a c <> Gt).
  { apply (string_compare_le_trans a b c).
    - destruct (String.compare a b); congruence.
    - destruct (String.compare b c); congruence. }
  destruct (String.compare a c); congruence.
Qed.

Lemma ltb_leb (a b : string) : String.ltb a b = true -> String.leb a b = true.
Proof. unfold String.ltb, String.leb. destruct (String.compare a b); congruence. Qed.

Lemma not_ltb_leb (a b : string) : String.ltb a b = false -> String.leb b a = true.
Proof.
  unfold String.ltb, String.leb. rewrite (String.compare_antisym b a).
  destruct (String.compare a b); simpl; congruence.
Qed.

Lemma insert_sorted_perm (x : A) (l : list A) :
  Permutation (PyStr.insert_sorted key x l) (x :: l).
Proof.
  induction l as [|y l IH]; simpl.
  - apply Permutation_refl.
  - destruct (String.ltb (key y) (key x)).
    + eapply perm_trans; [apply perm_skip, IH | apply perm_swap].
    + apply Permutation_refl.
Qed.

Lemma sort_perm (l : list A) : Permutation (PyStr.sort key l) l.
Proof.
  induction l as [|x l IH]; simpl.
  - apply perm_nil.
  - eapply perm_trans; [apply insert_sorted_perm | apply perm_skip, IH].
Qed.

Lemma sort_length (l : list A) : length (PyStr.sort key l) = length l.
Proof. apply Permutation_length, sort_perm. Qed.

Lemma sort_in (x : A) (l : list A) : In x (PyStr.sort key l) <-> In x l.
Proof.
  split; apply Permutation_in; [apply sort_perm | apply Permutation_sym, sort_perm].
Qed.

Lemma insert_sorted_sorted (x : A) (l : list A) :
  StronglySorted (key_le key) l -> StronglySorted (key_le key) (PyStr.insert_sorted key x l).
Proof.
  induction l as [|y l IH]; intros Hl; simpl.
  - constructor; constructor.
  - inversion Hl as [|? ? Hl' Hy]; subst.
    destruct (String.ltb (key y) (key x)) eqn:Hlt.
    + constructor; [apply IH, Hl'|].
      apply Forall_forall. intros z Hz.
      apply (Permutation_in _ (insert_sorted_perm x l)) in Hz.
      destruct Hz as [<- | Hz].
      * apply ltb_leb, Hlt.
      * rewrite Forall_forall in Hy. apply Hy, Hz.
    + constructor; [exact Hl|].
      constructor; [apply not_ltb_leb, Hlt|].
      eapply Forall_impl; [|exact Hy]. intros z Hz.
      eapply leb_trans; [apply not_ltb_leb, Hlt | exact Hz].
Qed.

Lemma sort_sorted (l : list A) : StronglySorted (key_le key) (PyStr.sort key l).
Proof.
  induction l as [|x l IH]; simpl.
  - constructor.
  - apply insert_sorted_sorted, IH.
Qed.

End SortFacts.

(** ** The per-run output path (lines 65-66) *)

Section Paths.

Lemma startswith_iff (s p : string) :
  PyStr.startswith s p = true <-> exists r, s = (p ++ r)%string.
Proof. unfold PyStr.startswith. apply prefix_iff. Qed.

Lemma join_relative (a b : string) :
  PyStr.startswith b "/" = false ->
  PyStr.join a b = (a ++ b)%string \/ PyStr.join a b = (a ++ "/" ++ b)%string.
Proof.
  intros Hb. unfold PyStr.join. rewrite Hb.
  destruct ((a =? "") || PyStr.endswith a "/"); auto.
Qed.

Lemma join_absolute (a b : string) :
  PyStr.startswith b "/" = true -> PyStr.join a b = b.
Proof. intros Hb. unfold PyStr.join. now rewrite Hb. Qed.

Lemma replace_dbfs_absent (s : string) :
  PyStr.contains "dbfs:" s = false -> PyStr.replace s "dbfs:" "/dbfs" = s.
Proof.
  induction s as [|c s IH]; intros H.
  - reflexivity.
  - rewrite replace_dbfs_step.
    change (PyStr.contains "dbfs:" (String c s))
      with (String.prefix "dbfs:" (String c s) || PyStr.contains "dbfs:" s) in H.
    apply orb_false_iff in H. destruct H as [H1 H2].
    rewrite H1, (IH H2). reflexivity.
Qed.

(** C8, as stated, fails: a run id that begins with [/] is an absolute
    path for [os.path.join], which then drops [output_dir]; nothing of
    [dbfs:] is left to rewrite. *)
Lemma opath_absolute_run_id :
  PyStr.startswith "dbfs:/models" "dbfs:" = true /\
  opath "dbfs:/models" "/r1" = "/r1" /\
  PyStr.startswith (opath "dbfs:/models" "/r1") "/dbfs" = false.
Proof. repeat split. Qed.

(** C8, amended: for every [output_dir] that begins with [dbfs:] and every
    [run_id] that does not begin with [/], the per-run output path
    [os.path.join(output_dir, run_id)] after the rewrite begins with
    [/dbfs]. *)
Theorem opath_dbfs_output_dir (output_dir run_id : string) :
  PyStr.startswith output_dir "dbfs:" = true ->
  PyStr.startswith run_id "/" = false ->
  PyStr.startswith (opath output_dir run_id) "/dbfs" = true.
Proof.
  intros Hdir Hrun. unfold opath.
  assert (Hjoin : PyStr.startswith (PyStr.join output_dir run_id) "dbfs:" = true).
  { destruct (join_relative output_dir run_id Hrun) as [-> | ->];
      apply prefix_append; exact Hdir. }
  apply startswith_iff in Hjoin. destruct Hjoin as [r ->].
  rewrite replace_dbfs_prefix. apply startswith_iff. eauto.
Qed.

Lemma opath_dbfs_output_dir_witness :
  PyStr.startswith "dbfs:/models" "dbfs:" = true /\
  PyStr.startswith "0a1b2c" "/" = false /\
  PyStr.startswith (opath "dbfs:/models" "0a1b2c") "/dbfs" = true.
Proof.
  split; [reflexivity | split; [reflexivity |]].
  apply (opath_dbfs_output_dir "dbfs:/models" "0a1b2c"); reflexivity.
Defined.

(** C10: the rewrite is not tied to the start of the path.  Wherever
    [dbfs:] occurs in the joined path, with [p] before it and [q] after it,
    that occurrence becomes [/dbfs] and both sides are rewritten in the same
    way. *)
Theorem opath_rewrites_every_occurrence (output_dir run_id p q : string) :
  PyStr.join output_dir run_id = (p ++ "dbfs:" ++ q)%string ->
  opath output_dir run_id =
  (PyStr.replace p "dbfs:" "/dbfs" ++ "/dbfs" ++ PyStr.replace q "dbfs:" "/dbfs")%string.
Proof.
  intros Hjoin. unfold opath. rewrite Hjoin. apply replace_dbfs_app.
Qed.

Lemma opath_rewrites_every_occurrence_witness :
  PyStr.startswith "/mnt/out" "dbfs:" = false /\
  PyStr.join "/mnt/out" "adbfs:b" = ("/mnt/out/a" ++ "dbfs:" ++ "b")%string /\
  opath "/mnt/out" "adbfs:b" = "/mnt/out/a/dbfsb".
Proof.
  split; [reflexivity | split; [reflexivity |]].
  exact (opath_rewrites_every_occurrence "/mnt/out" "adbfs:b" "/mnt/out/a" "b" eq_refl).
Defined.

End Paths.

(** ** The constructor (lines 18-33, 110-120) *)

Section Constructor.

Lemma length_pos_iff {A : Type} (l : list A) :
  (0 <? length l)%nat = true <-> l <> [].
Proof.
  destruct l; simpl; split; intros H; try congruence; try discriminate.
  reflexivity.
Qed.

Lemma init_outcome (stages : StagesArg) (versions : option (list string))
    (er : bool) :
  snd (__init__ stages versions er) =
  if ((0 <? length (snd (_normalize_stages stages)))
      && (0 <? length (versions_or_empty versions)))%nat
  then Raise (MlflowExportImportException (snd (_normalize_stages stages))
                                          (versions_or_empty versions))
  else Ok {| stages := snd (_normalize_stages stages);
             export_run := er;
             versions := versions_or_empty versions |}.
Proof.
  unfold __init__. destruct (_normalize_stages stages) as [out st]. simpl.
  destruct ((0 <? length st)%nat && (0 <? length (versions_or_empty versions))%nat);
    reflexivity.
Qed.

(** C3: when the normalized stage filter and the version filter are both
    non-empty the constructor raises the configuration error; when at most
    one of them is non-empty it returns the exporter with these filters. *)
Theorem init_filters_exclusive (stages : StagesArg)
    (versions : option (list string)) (er : bool) :
  let self_stages := snd (_normalize_stages stages) in
  let self_versions := versions_or_empty versions in
  (self_stages <> [] /\ self_versions <> [] ->
   snd (__init__ stages versions er) =
   Raise (MlflowExportImportException self_stages self_versions)) /\
  (self_stages = [] \/ self_versions = [] ->
   snd (__init__ stages versions er) =
   Ok {| stages := self_stages;
         export_run := er;
         versions := self_versions |}).
Proof.
  intros self_stages self_versions. rewrite init_outcome.
  fold self_stages self_versions. split.
  - intros [Hs Hv].
    apply length_pos_iff in Hs. apply length_pos_iff in Hv.
    rewrite Hs, Hv. reflexivity.
  - intros [H | H]; rewrite H; simpl; [reflexivity|].
    rewrite andb_false_r. reflexivity.
Qed.

Lemma init_filters_exclusive_witness :
  (snd (_normalize_stages (StagesStr "Production,Staging")) <> [] /\
   versions_or_empty (Some ["1"; "2"]) <> []) /\
  snd (__init__ (StagesStr "Production,Staging") (Some ["1"; "2"]) true) =
  Raise (MlflowExportImportException ["production"; "staging"] ["1"; "2"]) /\
  (snd (_normalize_stages StagesNone) = [] \/
   versions_or_empty (Some ["1"; "2"]) = []) /\
  snd (__init__ StagesNone (Some ["1"; "2"]) true) =
  Ok {| stages := []; export_run := true; versions := ["1"; "2"] |}.
Proof.
  assert (H1 : snd (_normalize_stages (StagesStr "Production,Staging")) <> [] /\
               versions_or_empty (Some ["1"; "2"]) <> []).
  { split; discriminate. }
  assert (H2 : snd (_normalize_stages StagesNone) = [] \/
               versions_or_empty (Some ["1"; "2"]) = []).
  { left. reflexivity. }
  split; [exact H1 | split; [| split; [exact H2 |]]].
  - exact (proj1 (init_filters_exclusive (StagesStr "Production,Staging")
                    (Some ["1"; "2"]) true) H1).
  - exact (proj2 (init_filters_exclusive StagesNone (Some ["1"; "2"]) true) H2).
Defined.

Lemma lower_empty_iff (s : string) : PyStr.lower s = "" <-> s = "".
Proof. destruct s; simpl; split; congruence. Qed.

(** C9: [stages=""] is split into the one-element filter [[""]].  The
    constructor accepts it when no versions are given, and the exporter then
    selects exactly the versions whose lower-cased stage is the empty string;
    with a non-empty version filter the constructor raises. *)
Theorem init_empty_string_stages (er : bool) :
  let self := {| stages := [""]; export_run := er; versions := [] |} in
  snd (_normalize_stages (StagesStr "")) = [""] /\
  (0 <? length (stages self))%nat = true /\
  snd (__init__ (StagesStr "") None er) = Ok self /\
  (forall vr, selected self vr = (PyStr.lower (current_stage vr) =? "")) /\
  (forall v vs, snd (__init__ (StagesStr "") (Some (v :: vs)) er) =
                Raise (MlflowExportImportException [""] (v :: vs))).
Proof.
  intros self. repeat split.
  intros vr. unfold selected, PyStr.py_in. simpl.
  rewrite orb_false_r, andb_true_r, negb_involutive. reflexivity.
Qed.

End Constructor.

(** ** One iteration and the loop (lines 59-85) *)

Section Loop.

Context {W Fs RegisteredModel Json Info : Type}.
Variable api : @Api W Fs RegisteredModel Json Info.
Variable self : ModelExporter.
Variable output_dir : string.

Ltac break_match :=
  match goal with
  | H : context [match ?x with _ => _ end] |- _ => destruct x eqn:?
  | |- context [match ?x with _ => _ end] => destruct x eqn:?
  end.

Ltac invert_eq :=
  match goal with
  | H : (_, _) = (_, _) |- _ => inversion H; clear H; subst
  | H : Some _ = Some _ |- _ => inversion H; clear H; subst
  | H : Ok _ = Ok _ |- _ => inversion H; clear H; subst
  | H : Raise _ = Raise _ |- _ => inversion H; clear H; subst
  end.

Ltac run_cases :=
  unfold export_version, try_except, try_body, except_rest, bind, call, print, ret in *;
  repeat (first [invert_eq | break_match]; simpl in *; try discriminate).

(** What one iteration leaves in the accumulators when it completes. *)
Lemma export_version_ok (vr : ModelVersion) (acc acc' : Acc) (w w' : W)
    (t : list Event) :
  export_version api self output_dir vr acc w = (Ok acc', w', t) ->
  manifest acc' = manifest acc ++ map dct_of (filter (selected self) [vr]) /\
  exists l,
    output_versions acc' = output_versions acc ++ l /\
    Forall (fun x => vr_dict x = vr /\ selected self vr = true) l /\
    length l <= length (filter (selected self) [vr]) /\
    exported_versions acc' = exported_versions acc + length l.
Proof.
  intros H. simpl.
  run_cases;
    (split; [rewrite ?app_nil_r; reflexivity |]);
    first [ solve [eexists [_]; simpl; repeat split; auto]
          | solve [exists []; simpl; rewrite ?app_nil_r, ?Nat.add_0_r;
                   repeat split; auto] ].
Qed.


(** An iteration prints and calls the collaborators of the [try] only. *)
Lemma export_version_trace (vr : ModelVersion) (acc : Acc) (w w' : W)
    (r : result Acc) (t : list Event) :
  export_version api self output_dir vr acc w = (r, w', t) ->
  forallb loop_event t = true.
Proof. intros H. run_cases; reflexivity. Qed.

(** When the calls of an iteration fail with a [RestException] at most, the
    iteration completes; a failure costs the version its output entry and
    is answered by a warning or a traceback, according to the message. *)
Lemma export_version_recovers (vr : ModelVersion) (acc : Acc) (w w' : W)
    (r : result Acc) (t : list Event) :
  export_version api self output_dir vr acc w = (r, w', t) ->
  forallb rest_only t = true ->
  exists acc',
    r = Ok acc' /\
    length (output_versions acc') + run_not_found_failures t + other_rest_failures t =
    length (output_versions acc) + length (filter (selected self) [vr]) /\
    warnings t = run_not_found_failures t /\
    tracebacks t = other_rest_failures t.
Proof.
  intros H Ht.
  run_cases; eexists; (split; [reflexivity |]);
    cbv [run_not_found_failures other_rest_failures warnings tracebacks
         is_rest_failure failure exn_of is_warning is_traceback filter];
    repeat match goal with
           | Hm : run_does_not_exist _ = _ |- _ => rewrite Hm
           end;
    simpl; rewrite ?length_app; simpl; repeat split; lia.
Qed.

Lemma for_versions_cons (vr : ModelVersion) (vs : list ModelVersion)
    (acc : Acc) (w : W) :
  for_versions api self output_dir (vr :: vs) acc w =
  match export_version api self output_dir vr acc w with
  | (Ok acc1, w1, t1) =>
      match for_versions api self output_dir vs acc1 w1 with
      | (r, w2, t2) => (r, w2, t1 ++ t2)
      end
  | (Raise e, w1, t1) => (Raise e, w1, t1)
  end.
Proof. reflexivity. Qed.

(** The loop invariant: the manifest gets the record of every selected
    version, in order; the output sequence gets entries of selected versions
    of the response only, at most one per selected version. *)
Lemma for_versions_ok (vs : list ModelVersion) (acc acc' : Acc) (w w' : W)
    (t : list Event) :
  for_versions api self output_dir vs acc w = (Ok acc', w', t) ->
  manifest acc' = manifest acc ++ map dct_of (filter (selected self) vs) /\
  exists l,
    output_versions acc' = output_versions acc ++ l /\
    Forall (fun x => In (vr_dict x) vs /\ selected self (vr_dict x) = true) l /\
    length l <= length (filter (selected self) vs) /\
    exported_versions acc' = exported_versions acc + length l.
Proof.
  revert acc w t. induction vs as [|vr vs IH]; intros acc w t H.
  - inversion H; subst. simpl. rewrite app_nil_r. split; [reflexivity|].
    exists []. rewrite app_nil_r. simpl. auto.
  - rewrite for_versions_cons in H.
    destruct (export_version api self output_dir vr acc w) as [[[acc1|e] w1] t1] eqn:Hstep;
      [|discriminate].
    destruct (for_versions api self output_dir vs acc1 w1) as [[r w2] t2] eqn:Hrest.
    inversion H; subst. clear H.
    apply export_version_ok in Hstep. destruct Hstep as [Hm1 [l1 [Ho1 [Hf1 [Hl1 He1]]]]].
    apply IH in Hrest. destruct Hrest as [Hm2 [l2 [Ho2 [Hf2 [Hl2 He2]]]]].
    split.
    + rewrite Hm2, Hm1.
      change (vr :: vs) with ([vr] ++ vs).
      rewrite filter_app, map_app, app_assoc. reflexivity.
    + exists (l1 ++ l2). repeat split.
      * rewrite Ho2, Ho1, app_assoc. reflexivity.
      * apply Forall_app. split.
        -- eapply Forall_impl; [|exact Hf1]. simpl.
           intros x [Hx Hs]. rewrite Hx. auto.
        -- eapply Forall_impl; [|exact Hf2]. simpl. intros x [Hx Hs]. auto.
      * change (vr :: vs) with ([vr] ++ vs).
        rewrite filter_app, !length_app. lia.
      * rewrite He2, He1, length_app. lia.
Qed.

Lemma for_versions_trace (vs : list ModelVersion) (acc : Acc) (w w' : W)
    (r : result Acc) (t : list Event) :
  for_versions api self output_dir vs acc w = (r, w', t) ->
  forallb loop_event t = true.
Proof.
  revert acc w t. induction vs as [|vr vs IH]; intros acc w t H.
  - inversion H. reflexivity.
  - rewrite for_versions_cons in H.
    destruct (export_version api self output_dir vr acc w) as [[[acc1|e] w1] t1] eqn:Hstep.
    + destruct (for_versions api self output_dir vs acc1 w1) as [[r2 w2] t2] eqn:Hrest.
      inversion H; subst. rewrite forallb_app.
      rewrite (export_version_trace _ _ _ _ _ _ Hstep), (IH _ _ _ Hrest). reflexivity.
    + inversion H; subst. exact (export_version_trace _ _ _ _ _ _ Hstep).
Qed.

Lemma for_versions_recovers (vs : list ModelVersion) (acc : Acc) (w w' : W)
    (r : result Acc) (t : list Event) :
  for_versions api self output_dir vs acc w = (r, w', t) ->
  forallb rest_only t = true ->
  exists acc',
    r = Ok acc' /\
    length (output_versions acc') + run_not_found_failures t + other_rest_failures t =
    length (output_versions acc) + length (filter (selected self) vs) /\
    warnings t = run_not_found_failures t /\
    tracebacks t = other_rest_failures t.
Proof.
  revert acc w t. induction vs as [|vr vs IH]; intros acc w t H Ht.
  - inversion H; subst. exists acc.
    unfold run_not_found_failures, other_rest_failures, warnings, tracebacks.
    simpl. repeat split. lia.
  - rewrite for_versions_cons in H.
    destruct (export_version api self output_dir vr acc w) as [[r1 w1] t1] eqn:Hstep.
    assert (Ht1 : forallb rest_only t1 = true).
    { destruct r1 as [acc1|e].
      - destruct (for_versions api self output_dir vs acc1 w1) as [[r2 w2] t2].
        inversion H; subst. rewrite forallb_app in Ht.
        apply andb_true_iff in Ht. tauto.
      - inversion H; subst. exact Ht. }
    destruct (export_version_recovers _ _ _ _ _ _ Hstep Ht1)
      as [acc1 [-> [Hc1 [Hw1 Hb1]]]].
    destruct (for_versions api self output_dir vs acc1 w1) as [[r2 w2] t2] eqn:Hrest.
    inversion H; subst. clear H.
    rewrite forallb_app in Ht. apply andb_true_iff in Ht. destruct Ht as [_ Ht2].
    destruct (IH _ _ _ Hrest Ht2) as [acc2 [-> [Hc2 [Hw2 Hb2]]]].
    exists acc2. split; [reflexivity|].
    unfold run_not_found_failures, other_rest_failures, warnings, tracebacks in *.
    rewrite !filter_app, !length_app.
    change (vr :: vs) with ([vr] ++ vs). rewrite filter_app, length_app.
    repeat split; lia.
Qed.


(** An output entry is added only after both lookups have succeeded. *)
Lemma export_version_looked_up (vr : ModelVersion) (acc acc' : Acc) (w w' : W)
    (t : list Event) (x : ExportedVersion) :
  export_version api self output_dir vr acc w = (Ok acc', w', t) ->
  In x (output_versions acc') ->
  In x (output_versions acc) \/ looked_up t x.
Proof.
  intros H Hx.
  run_cases; auto;
    apply in_app_iff in Hx; destruct Hx as [Hx | [<- | []]]; auto;
    right; do 2 eexists; simpl; auto 10.
Qed.

Lemma looked_up_app (t1 t2 : list (@Event Fs RegisteredModel Json Info))
    (x : ExportedVersion) :
  looked_up t1 x \/ looked_up t2 x -> looked_up (t1 ++ t2) x.
Proof.
  intros [(run & ex & H1 & H2 & H3) | (run & ex & H1 & H2 & H3)];
    exists run, ex; rewrite !in_app_iff; tauto.
Qed.

Lemma for_versions_looked_up (vs : list ModelVersion) (acc acc' : Acc) (w w' : W)
    (t : list Event) (x : ExportedVersion) :
  for_versions api self output_dir vs acc w = (Ok acc', w', t) ->
  In x (output_versions acc') ->
  In x (output_versions acc) \/ looked_up t x.
Proof.
  revert acc w t. induction vs as [|vr vs IH]; intros acc w t H Hx.
  - inversion H; subst. auto.
  - rewrite for_versions_cons in H.
    destruct (export_version api self output_dir vr acc w) as [[[acc1|e] w1] t1] eqn:Hstep;
      [| discriminate].
    destruct (for_versions api self output_dir vs acc1 w1) as [[r2 w2] t2] eqn:Hrest.
    inversion H; subst. clear H.
    destruct (IH _ _ _ Hrest Hx) as [Hx1 | Hl].
    + destruct (export_version_looked_up _ _ _ _ _ _ _ Hstep Hx1) as [Hx0 | Hl].
      * auto.
      * right. apply looked_up_app. auto.
    + right. apply looked_up_app. auto.
Qed.

(** An iteration that completes has met [RestException]s at most. *)
Lemma export_version_rest_only (vr : ModelVersion) (acc acc' : Acc) (w w' : W)
    (t : list Event) :
  export_version api self output_dir vr acc w = (Ok acc', w', t) ->
  forallb rest_only t = true.
Proof. intros H. run_cases; reflexivity. Qed.

Lemma for_versions_rest_only (vs : list ModelVersion) (acc acc' : Acc) (w w' : W)
    (t : list Event) :
  for_versions api self output_dir vs acc w = (Ok acc', w', t) ->
  forallb rest_only t = true.
Proof.
  revert acc w t. induction vs as [|vr vs IH]; intros acc w t H.
  - inversion H. reflexivity.
  - rewrite for_versions_cons in H.
    destruct (export_version api self output_dir vr acc w) as [[[acc1|e] w1] t1] eqn:Hstep;
      [| discriminate].
    destruct (for_versions api self output_dir vs acc1 w1) as [[r2 w2] t2] eqn:Hrest.
    inversion H; subst. rewrite forallb_app.
    rewrite (export_version_rest_only _ _ _ _ _ _ Hstep), (IH _ _ _ Hrest). reflexivity.
Qed.

End Loop.

(** ** The whole export (lines 36-107) *)

Section ExportModel.

Context {W Fs RegisteredModel Json Info : Type}.
Variable api : @Api W Fs RegisteredModel Json Info.
Variable self : ModelExporter.

Ltac break_match :=
  match goal with
  | H : context [match ?x with _ => _ end] |- _ => destruct x eqn:?
  | |- context [match ?x with _ => _ end] => destruct x eqn:?
  end.

Ltac invert_eq :=
  match goal with
  | H : (_, _) = (_, _) |- _ => inversion H; clear H; subst
  | H : Some _ = Some _ |- _ => inversion H; clear H; subst
  | H : Ok _ = Ok _ |- _ => inversion H; clear H; subst
  | H : Raise _ = Raise _ |- _ => inversion H; clear H; subst
  end.

Ltac export_cases :=
  unfold export_model, _export_model, try_except, bind, call, print, ret in *;
  repeat (first [invert_eq | break_match]; simpl in *; try discriminate).

Ltac not_in_loop :=
  match goal with
  | Hl : for_versions _ _ _ _ _ _ = (_, _, ?tl), Hi : In _ ?tl |- _ =>
      apply for_versions_trace in Hl;
      rewrite forallb_forall in Hl; apply Hl in Hi; discriminate
  end.

Ltac split_in H :=
  simpl in H; repeat rewrite in_app_iff in H; simpl in H;
  repeat match goal with
         | Hd : _ \/ _ |- _ => destruct Hd
         | Hd : False |- _ => destruct Hd
         end;
  try discriminate; try not_in_loop.

(** The shape of a run: either the loop completes and the document is
    handed to [write_json_file], or a call outside the [try] fails, or the
    loop stops on an exception that is not a [RestException]. *)
Lemma _export_model_run (model_name output_dir : string) (w w' : W)
    (r : result (list VersionRecord)) (t : list Event) :
  _export_model api self model_name output_dir w = (r, w', t) ->
  (exists fs u vs acc mo ci rw w1 w2 tl,
      for_versions api self output_dir vs acc0 w1 = (Ok acc, w2, tl) /\
      t = [GetFilesystem output_dir (Ok fs); Mkdirs output_dir (Ok u);
           SearchModelVersions ("name='" ++ model_name ++ "'") (Ok vs);
           Printed (FoundVersions (length vs) model_name)]
          ++ tl ++
          [GetRegisteredModel model_name (Ok mo); CreateExportInfo (Ok ci);
           Printed (ExportedVersions (exported_versions acc)
                      (length (PyStr.sort version_key (output_versions acc)))
                      model_name);
           WriteJsonFile (PyStr.join output_dir "model.json")
             (document self vs acc (message_to_json api mo) ci) rw] /\
      r = match rw with Ok _ => Ok (manifest acc) | Raise e => Raise e end) \/
  (exists e, r = Raise e /\ forallb rest_only t = false /\
             forall path doc rr, ~ In (WriteJsonFile path doc rr) t).
Proof.
  intros H. export_cases.
  all: try (left; do 10 eexists; split; [eassumption | split; reflexivity]).
  all: right; eexists; (split; [reflexivity |]).
  all: split;
    [ try match goal with
          | Hl : for_versions _ _ _ _ _ _ = (Raise _, _, ?tl) |- _ =>
              destruct (forallb rest_only tl) eqn:Hf;
              [ destruct (for_versions_recovers _ _ _ _ _ _ _ _ _ Hl Hf)
                  as [? [? _]]; discriminate
              | reflexivity ]
          end;
      rewrite ?forallb_app; unfold rest_only; simpl;
      destruct e; rewrite ?andb_false_r; reflexivity
    | intros path doc rr Hin; split_in Hin ].
Qed.

(** The document handed to [write_json_file] is the one assembled from the
    registry response and from the accumulators the loop ends with. *)
Lemma _export_model_document (model_name output_dir : string) (w w' : W)
    (r : result (list VersionRecord)) (t : list Event)
    (path : string) (doc : Document) (rr : result unit) :
  _export_model api self model_name output_dir w = (r, w', t) ->
  In (WriteJsonFile path doc rr) t ->
  exists vs acc mo ci w1 w2 tl,
    In (SearchModelVersions ("name='" ++ model_name ++ "'") (Ok vs)) t /\
    for_versions api self output_dir vs acc0 w1 = (Ok acc, w2, tl) /\
    (forall ev, In ev tl -> In ev t) /\
    path = PyStr.join output_dir "model.json" /\
    doc = document self vs acc (message_to_json api mo) ci.
Proof.
  intros H Hin.
  destruct (_export_model_run _ _ _ _ _ _ H)
    as [(fs & u & vs & acc & mo & ci & rw & w1 & w2 & tl & Hloop & Ht & Hr)
       | (e & _ & _ & Hno)].
  - subst t. exists vs, acc, mo, ci, w1, w2, tl.
    split; [simpl; auto |]. split; [exact Hloop |].
    split; [intros ev Hev; rewrite !in_app_iff; auto |].
    split_in Hin.
    all: match goal with
         | He : WriteJsonFile _ _ _ = WriteJsonFile _ _ _ |- _ =>
             inversion He; subst; clear He
         end; split; reflexivity.
  - exfalso. exact (Hno _ _ _ Hin).
Qed.

(** Counting over a trace that carries the loop in its middle. *)
Lemma count_around_loop (p : Event -> bool) (pre post tl : list (@Event Fs RegisteredModel Json Info)) :
  forallb (fun ev => negb (p ev)) pre = true ->
  forallb (fun ev => negb (p ev)) post = true ->
  length (filter p (pre ++ tl ++ post)) = length (filter p tl).
Proof.
  intros Hpre Hpost.
  assert (Hnone : forall l, forallb (fun ev => negb (p ev)) l = true -> filter p l = []).
  { induction l as [|x l IH]; simpl; [reflexivity|].
    intros Hl. apply andb_true_iff in Hl. destruct Hl as [Hx Hl].
    destruct (p x); [discriminate | exact (IH Hl)]. }
  rewrite !filter_app, (Hnone _ Hpre), (Hnone _ Hpost), app_nil_r. reflexivity.
Qed.

(** When every failed call of a run is a call of the [try] that failed with
    a [RestException], [_export_model] completes: it returns the record of
    every selected version and writes the document; each failure costs one
    output entry and is answered by a warning or a traceback. *)
Lemma _export_model_recovers (model_name output_dir : string) (w w' : W)
    (r : result (list VersionRecord)) (t : list Event) :
  _export_model api self model_name output_dir w = (r, w', t) ->
  forallb rest_only t = true ->
  exists vs path doc,
    r = Ok (map dct_of (filter (selected self) vs)) /\
    In (SearchModelVersions ("name='" ++ model_name ++ "'") (Ok vs)) t /\
    In (WriteJsonFile path doc (Ok tt)) t /\
    length (latest_versions doc) + run_not_found_failures t + other_rest_failures t =
    length (filter (selected self) vs) /\
    warnings t = run_not_found_failures t /\
    tracebacks t = other_rest_failures t.
Proof.
  intros H Hall.
  destruct (_export_model_run _ _ _ _ _ _ H)
    as [(fs & u & vs & acc & mo & ci & rw & w1 & w2 & tl & Hloop & Ht & Hr)
       | (e & _ & Hsome & _)]; [| congruence].
  subst t.
  assert (Htl : forallb rest_only tl = true).
  { rewrite !forallb_app in Hall. apply andb_true_iff in Hall.
    destruct Hall as [_ Hall]. apply andb_true_iff in Hall. tauto. }
  assert (Hrw : rw = Ok tt).
  { rewrite !forallb_app in Hall. apply andb_true_iff in Hall.
    destruct Hall as [_ Hall]. apply andb_true_iff in Hall.
    destruct Hall as [_ Hall]. destruct rw as [[]|e]; [reflexivity|].
    unfold rest_only in Hall. simpl in Hall. destruct e; discriminate. }
  subst rw.
  destruct (for_versions_recovers _ _ _ _ _ _ _ _ _ Hloop Htl)
    as [acc' [Hacc [Hcount [Hwarn Htrace]]]].
  inversion Hacc; subst acc'; clear Hacc.
  destruct (for_versions_ok _ _ _ _ _ _ _ _ _ Hloop) as [Hman _].
  exists vs, (PyStr.join output_dir "model.json"),
    (document self vs acc (message_to_json api mo) ci).
  unfold run_not_found_failures, other_rest_failures, warnings, tracebacks in *.
  rewrite !count_around_loop by reflexivity.
  split; [rewrite Hr, Hman; reflexivity |].
  split; [simpl; auto |].
  split; [rewrite !in_app_iff; simpl; auto 10 |].
  split; [| split; assumption].
  simpl. rewrite sort_length. simpl in Hcount. exact Hcount.
Qed.

(** [export_model] around [_export_model] (lines 42-47). *)
Lemma export_model_run (model_name output_dir : string) (w : W) :
  export_model api self model_name output_dir w =
  match _export_model api self model_name output_dir w with
  | (Ok _, w1, t1) => (Ok (true, model_name), w1, t1)
  | (Raise e, w1, t1) => (Ok (false, model_name), w1, t1 ++ [Printed (Error e)])
  end.
Proof.
  unfold export_model, try_except, bind, ret, print.
  destruct (_export_model api self model_name output_dir w) as [[[m|e] w1] t1];
    simpl; rewrite ?app_nil_r; reflexivity.
Qed.

(** C7: whatever [_export_model] does, [export_model] returns normally: with
    [(true, model_name)] when [_export_model] returns, and with
    [(false, model_name)], after printing the error, when it raises. *)
Theorem export_model_catches (model_name output_dir : string) (w : W) :
  let inner := _export_model api self model_name output_dir w in
  let run := export_model api self model_name output_dir w in
  (forall e, outcome run <> Raise e) /\
  (forall manifest, outcome inner = Ok manifest ->
     outcome run = Ok (true, model_name) /\ trace run = trace inner) /\
  (forall e, outcome inner = Raise e ->
     outcome run = Ok (false, model_name) /\
     trace run = trace inner ++ [Printed (Error e)]).
Proof.
  simpl. rewrite export_model_run. unfold outcome, trace.
  destruct (_export_model api self model_name output_dir w) as [[[m|e] w1] t1];
    simpl; repeat split; intros; try discriminate; congruence.
Qed.

Lemma rest_only_error (e : exn) (t : list (@Event Fs RegisteredModel Json Info)) :
  forallb rest_only (t ++ [Printed (Error e)]) = forallb rest_only t.
Proof. rewrite forallb_app. simpl. apply andb_true_r. Qed.

(** A run of [export_model] is successful exactly when every call that
    failed is a call of the [try] that failed with a [RestException]. *)
Lemma export_model_recovers (model_name output_dir : string) (w : W) :
  let run := export_model api self model_name output_dir w in
  (forallb rest_only (trace run) = true ->
   outcome run = Ok (true, model_name) /\
   exists vs path doc,
     outcome (_export_model api self model_name output_dir w) =
     Ok (map dct_of (filter (selected self) vs)) /\
     In (SearchModelVersions ("name='" ++ model_name ++ "'") (Ok vs)) (trace run) /\
     In (WriteJsonFile path doc (Ok tt)) (trace run) /\
     (forall x, In x (latest_versions doc) ->
                In (vr_dict x) (filter (selected self) vs) /\ looked_up (trace run) x) /\
     length (latest_versions doc)
       + run_not_found_failures (trace run) + other_rest_failures (trace run) =
     length (filter (selected self) vs) /\
     warnings (trace run) = run_not_found_failures (trace run) /\
     tracebacks (trace run) = other_rest_failures (trace run)) /\
  (forallb rest_only (trace run) = false ->
   outcome run = Ok (false, model_name)).
Proof.
  simpl. rewrite export_model_run. unfold outcome, trace.
  destruct (_export_model api self model_name output_dir w) as [[r w1] t1] eqn:Hrun.
  split.
  - intros Hall.
    assert (Hall1 : forallb rest_only t1 = true).
    { destruct r; simpl in Hall; [exact Hall |].
      rewrite rest_only_error in Hall. exact Hall. }
    destruct (_export_model_recovers _ _ _ _ _ _ Hrun Hall1)
      as (vs & path & doc & -> & Hs & Hw & Hc & Hwarn & Htb).
    simpl. split; [reflexivity |].
    exists vs, path, doc.
    split; [reflexivity |]. split; [exact Hs |]. split; [exact Hw |].
    split; [| auto].
    intros x Hx.
    destruct (_export_model_document _ _ _ _ _ _ _ _ _ Hrun Hw)
      as (vs' & acc & mo & ci & w2 & w3 & tl & Hs' & Hloop & Hsub & _ & ->).
    assert (vs' = vs).
    { destruct (_export_model_run _ _ _ _ _ _ Hrun)
        as [(fs & u & vs0 & acc1 & mo1 & ci1 & rw & w4 & w5 & tl1 & Hloop1 & Ht & Hr)
           | (e & He & _)]; [| discriminate].
      subst t1. clear - Hs Hs' Hloop1.
      assert (Huniq : forall v, In (SearchModelVersions ("name='" ++ model_name ++ "'") (Ok v))
                  ([GetFilesystem output_dir (Ok fs); Mkdirs output_dir (Ok u);
                    SearchModelVersions ("name='" ++ model_name ++ "'") (Ok vs0);
                    Printed (FoundVersions (length vs0) model_name)]
                   ++ tl1 ++
                   [GetRegisteredModel model_name (Ok mo1); CreateExportInfo (Ok ci1);
                    Printed (ExportedVersions (exported_versions acc1)
                      (length (PyStr.sort version_key (output_versions acc1))) model_name);
                    WriteJsonFile (PyStr.join output_dir "model.json")
                      (document self vs0 acc1 (message_to_json api mo1) ci1) rw]) ->
                v = vs0).
      { intros v Hv. split_in Hv. congruence. }
      rewrite (Huniq _ Hs), (Huniq _ Hs'). reflexivity. }
    subst vs'.
    destruct (for_versions_ok _ _ _ _ _ _ _ _ _ Hloop) as [_ (l & Hl & Hf & _)].
    simpl in Hx, Hl. apply sort_in in Hx. split.
    + rewrite Hl in Hx.
      rewrite Forall_forall in Hf. destruct (Hf _ Hx) as [Hin Hsel].
      apply filter_In. split; assumption.
    + destruct (for_versions_looked_up _ _ _ _ _ _ _ _ _ _ Hloop Hx)
        as [[] | (run & ex & H1 & H2 & H3)].
      exists run, ex. auto.
  - intros Hsome. destruct r as [m|e]; [| reflexivity].
    simpl in Hsome.
    destruct (_export_model_run _ _ _ _ _ _ Hrun)
      as [(fs & u & vs0 & acc1 & mo1 & ci1 & rw & w4 & w5 & tl1 & Hloop1 & Ht & Hr)
         | (e & He & _)]; [| discriminate].
    destruct rw as [[]|e]; [| discriminate].
    subst t1. rewrite !forallb_app in Hsome.
    rewrite (for_versions_rest_only _ _ _ _ _ _ _ _ _ Hloop1) in Hsome.
    discriminate.
Qed.

(** Calls recorded by [export_model] are those of [_export_model]. *)
Lemma export_model_calls (model_name output_dir : string) (w : W) (ev : Event) :
  (forall l, ev <> Printed l) ->
  In ev (trace (export_model api self model_name output_dir w)) <->
  In ev (trace (_export_model api self model_name output_dir w)).
Proof.
  intros Hev. rewrite export_model_run. unfold trace.
  destruct (_export_model api self model_name output_dir w) as [[[m|e] w1] t1];
    simpl; [tauto |].
  rewrite in_app_iff. simpl. split; [| tauto].
  intros [H | [H | []]]; [exact H |]. symmetry in H. destruct (Hev _ H).
Qed.

(** What is known of a document that was handed to [write_json_file]. *)
Lemma export_model_document (model_name output_dir : string) (w : W)
    (path : string) (doc : Document) (rr : result unit) :
  In (WriteJsonFile path doc rr)
     (trace (export_model api self model_name output_dir w)) ->
  exists vs l,
    In (SearchModelVersions ("name='" ++ model_name ++ "'") (Ok vs))
       (trace (export_model api self model_name output_dir w)) /\
    num_src_versions (export_info doc) = length vs /\
    num_dst_versions (export_info doc) = length (latest_versions doc) /\
    latest_versions doc = PyStr.sort version_key l /\
    Forall (fun x => In (vr_dict x) vs /\ selected self (vr_dict x) = true) l /\
    length l <= length (filter (selected self) vs) /\
    Forall (looked_up (trace (export_model api self model_name output_dir w))) l.
Proof.
  intros Hin. apply export_model_calls in Hin; [| discriminate].
  destruct (_export_model api self model_name output_dir w) as [[r w1] t1] eqn:Hrun.
  destruct (_export_model_document _ _ _ _ _ _ _ _ _ Hrun Hin)
    as (vs & acc & mo & ci & w2 & w3 & tl & Hs & Hloop & Hsub & _ & ->).
  destruct (for_versions_ok _ _ _ _ _ _ _ _ _ Hloop) as [_ (l & Hl & Hf & Hlen & _)].
  exists vs, l. simpl in Hl.
  split; [apply export_model_calls; [discriminate | rewrite Hrun; exact Hs] |].
  simpl. rewrite Hl. repeat split; try assumption.
  apply Forall_forall. intros x Hx.
  assert (Hx' : In x (output_versions acc)) by (rewrite Hl; exact Hx).
  destruct (for_versions_looked_up _ _ _ _ _ _ _ _ _ _ Hloop Hx')
    as [[] | (run & ex & H1 & H2 & H3)].
  exists run, ex.
  split; [apply export_model_calls; [discriminate | rewrite Hrun; auto] |].
  split; [apply export_model_calls; [discriminate | rewrite Hrun; auto] |].
  exact H3.
Qed.

Lemma run_not_found_only_rest (t : list (@Event Fs RegisteredModel Json Info)) :
  forallb run_not_found_only t = true ->
  forallb rest_only t = true /\ other_rest_failures t = 0.
Proof.
  unfold other_rest_failures.
  induction t as [|ev t IH]; simpl; [auto |].
  intros H. apply andb_true_iff in H. destruct H as [Hev Ht].
  destruct (IH Ht) as [IH1 IH2]. rewrite IH1.
  unfold rest_only, is_rest_failure.
  destruct ev as [l|d r|p r|f r|i o r|i r|i r|n r|r|p d r]; simpl in *;
    try (destruct r as [a|[msg|s v|msg]]; simpl in *; try discriminate;
         try rewrite Hev; simpl; auto).
  auto.
Qed.

Lemma lower_ascii_idem (c : ascii) :
  PyStr.lower_ascii (PyStr.lower_ascii c) = PyStr.lower_ascii c.
Proof. destruct c as [[] [] [] [] [] [] [] []]; reflexivity. Qed.

Lemma lower_idem (s : string) : PyStr.lower (PyStr.lower s) = PyStr.lower s.
Proof.
  induction s as [|c s IH]; simpl; [reflexivity |].
  rewrite lower_ascii_idem, IH. reflexivity.
Qed.

(** A version that passes the test of line 60 under an active stage filter
    has a stage that matches the filter, whatever the case of the letters. *)
Lemma selected_stage_matches (vr : ModelVersion) :
  stages self <> [] ->
  selected self vr = true ->
  stage_matches (stages self) (current_stage vr) = true.
Proof.
  intros Hne Hsel. unfold selected in Hsel.
  apply andb_true_iff in Hsel. destruct Hsel as [Hstage _].
  apply length_pos_iff in Hne. rewrite Hne in Hstage. simpl in Hstage.
  rewrite negb_involutive in Hstage.
  unfold PyStr.py_in in Hstage. apply existsb_exists in Hstage.
  destruct Hstage as [f [Hf Heq]]. apply String.eqb_eq in Heq.
  unfold stage_matches. apply existsb_exists. exists f. split; [exact Hf |].
  apply String.eqb_eq. rewrite <- Heq. apply lower_idem.
Qed.

Lemma filter_length_mono {A : Type} (f g : A -> bool) (l : list A) :
  (forall x, f x = true -> g x = true) ->
  length (filter f l) <= length (filter g l).
Proof.
  intros Hfg. induction l as [|x l IH]; simpl; [lia |].
  destruct (f x) eqn:Hf.
  - rewrite (Hfg _ Hf). simpl. lia.
  - destruct (g x); simpl; lia.
Qed.

(** C1, amended: a [RestException] raised by the run exporter, by [get_run]
    or by [get_experiment] while one version is processed never stops the
    export.  When no call fails otherwise, [export_model] returns
    [(true, model_name)], the manifest has the record of every selected
    version, the document is written, each failure costs one output entry,
    and each failure whose message is not a missing run is answered by one
    traceback.  When some call fails otherwise, with an exception of another
    class or outside the [try], [export_model] returns
    [(false, model_name)]. *)
Theorem rest_exceptions_do_not_abort (model_name output_dir : string) (w : W) :
  let run := export_model api self model_name output_dir w in
  (forallb rest_only (trace run) = true ->
   outcome run = Ok (true, model_name) /\
   exists vs path doc,
     outcome (_export_model api self model_name output_dir w) =
     Ok (map dct_of (filter (selected self) vs)) /\
     In (SearchModelVersions ("name='" ++ model_name ++ "'") (Ok vs)) (trace run) /\
     In (WriteJsonFile path doc (Ok tt)) (trace run) /\
     length (latest_versions doc)
       + run_not_found_failures (trace run) + other_rest_failures (trace run) =
     length (filter (selected self) vs) /\
     tracebacks (trace run) = other_rest_failures (trace run)) /\
  (forallb rest_only (trace run) = false ->
   outcome run = Ok (false, model_name)).
Proof.
  intros run.
  destruct (export_model_recovers model_name output_dir w) as [Hyes Hno].
  fold run in Hyes, Hno. split; [| exact Hno].
  intros Hall.
  destruct (Hyes Hall) as [Hout (vs & path & doc & Hm & Hs & Hw & _ & Hc & _ & Htb)].
  split; [exact Hout |]. exists vs, path, doc. auto.
Qed.

(** C2: when the only calls that fail are [get_run] calls failing with a
    [RestException] that mentions [RESOURCE_DOES_NOT_EXIST: Run],
    [export_model] returns [(true, model_name)]; the manifest has the record
    of every selected version, failed or not; the output sequence has
    entries of selected versions only, one fewer per failed lookup; and one
    warning is printed per failed lookup. *)
Theorem run_not_found_is_skipped (model_name output_dir : string) (w : W) :
  let run := export_model api self model_name output_dir w in
  forallb run_not_found_only (trace run) = true ->
  outcome run = Ok (true, model_name) /\
  exists vs path doc,
    outcome (_export_model api self model_name output_dir w) =
    Ok (map dct_of (filter (selected self) vs)) /\
    In (SearchModelVersions ("name='" ++ model_name ++ "'") (Ok vs)) (trace run) /\
    In (WriteJsonFile path doc (Ok tt)) (trace run) /\
    (forall x, In x (latest_versions doc) ->
               In (vr_dict x) (filter (selected self) vs) /\
               looked_up (trace run) x) /\
    length (latest_versions doc) + run_not_found_failures (trace run) =
    length (filter (selected self) vs) /\
    warnings (trace run) = run_not_found_failures (trace run).
Proof.
  intros run Honly.
  destruct (run_not_found_only_rest _ Honly) as [Hall Hzero].
  destruct (export_model_recovers model_name output_dir w) as [Hyes _].
  fold run in Hyes.
  destruct (Hyes Hall) as [Hout (vs & path & doc & Hm & Hs & Hw & Hsub & Hc & Hwarn & _)].
  split; [exact Hout |]. exists vs, path, doc.
  rewrite Hzero, Nat.add_0_r in Hc. auto 10.
Qed.

(** C4: under an active stage filter, a version whose stage matches no
    element of the filter, case being ignored, has no entry in the output
    sequence, and [num_dst_versions] is at most the number of versions of
    the registry response whose stage matches. *)
Theorem stage_filter_excludes (model_name output_dir : string) (w : W)
    (path : string) (doc : Document) (rr : result unit) :
  let run := export_model api self model_name output_dir w in
  stages self <> [] ->
  In (WriteJsonFile path doc rr) (trace run) ->
  exists vs,
    In (SearchModelVersions ("name='" ++ model_name ++ "'") (Ok vs)) (trace run) /\
    num_src_versions (export_info doc) = length vs /\
    (forall vr, stage_matches (stages self) (current_stage vr) = false ->
                ~ In vr (map vr_dict (latest_versions doc))) /\
    num_dst_versions (export_info doc) <=
    length (filter (fun vr => stage_matches (stages self) (current_stage vr)) vs).
Proof.
  intros run Hne Hin.
  destruct (export_model_document _ _ _ _ _ _ Hin)
    as (vs & l & Hs & Hsrc & Hdst & Hl & Hf & Hlen & Hlook).
  exists vs. split; [exact Hs |]. split; [exact Hsrc |].
  rewrite Forall_forall in Hf. split.
  - intros vr Hvr Hin'. apply in_map_iff in Hin'.
    destruct Hin' as [x [<- Hx]]. rewrite Hl in Hx. apply sort_in in Hx.
    destruct (Hf _ Hx) as [_ Hsel].
    rewrite (selected_stage_matches _ Hne Hsel) in Hvr. discriminate.
  - rewrite Hdst, Hl, sort_length.
    eapply Nat.le_trans; [exact Hlen |].
    apply filter_length_mono. intros x Hx. apply selected_stage_matches; assumption.
Qed.

(** C5: in the document written, [num_dst_versions] is the length of the
    output sequence and is at most [num_src_versions], the length of the
    registry response; every output entry carries a version of that
    response, so its version identifier occurs in it. *)
Theorem export_info_counts (model_name output_dir : string) (w : W)
    (path : string) (doc : Document) (rr : result unit) :
  let run := export_model api self model_name output_dir w in
  In (WriteJsonFile path doc rr) (trace run) ->
  exists vs,
    In (SearchModelVersions ("name='" ++ model_name ++ "'") (Ok vs)) (trace run) /\
    num_src_versions (export_info doc) = length vs /\
    num_dst_versions (export_info doc) = length (latest_versions doc) /\
    num_dst_versions (export_info doc) <= num_src_versions (export_info doc) /\
    (forall x, In x (latest_versions doc) ->
               In (vr_dict x) vs /\ In (version_key x) (map version vs)).
Proof.
  intros run Hin.
  destruct (export_model_document _ _ _ _ _ _ Hin)
    as (vs & l & Hs & Hsrc & Hdst & Hl & Hf & Hlen & Hlook).
  exists vs. repeat split; try assumption.
  - rewrite Hdst, Hsrc, Hl, sort_length.
    eapply Nat.le_trans; [exact Hlen | apply filter_length_le].
  - rewrite Forall_forall in Hf. rewrite Hl in H. apply sort_in in H.
    apply Hf, H.
  - rewrite Forall_forall in Hf. rewrite Hl in H. apply sort_in in H.
    unfold version_key. apply in_map. apply Hf, H.
Qed.

(** C6: the output sequence of the document written is in ascending order
    of the version identifiers compared as strings, character by character:
    each entry's identifier is at most that of every later entry. *)
Theorem latest_versions_sorted (model_name output_dir : string) (w : W)
    (path : string) (doc : Document) (rr : result unit) :
  let run := export_model api self model_name output_dir w in
  In (WriteJsonFile path doc rr) (trace run) ->
  StronglySorted (key_le version_key) (latest_versions doc).
Proof.
  intros run Hin.
  destruct (export_model_document _ _ _ _ _ _ Hin)
    as (vs & l & _ & _ & _ & Hl & _).
  rewrite Hl. apply sort_sorted.
Qed.

End ExportModel.

(** ** The scenarios *)

Section Scenarios.

Import Scenario.

Ltac pick_event := vm_compute; repeat (first [left; reflexivity | right]).

(** C1, as stated, fails: the run exporter raises an exception that is not a
    [RestException] for the first of three versions.  Nothing is logged for
    it inside the loop, the loop does not go on to versions 2 and 3, no
    document is written, and [export_model] reports the failure. *)
Lemma other_exception_aborts_export :
  outcome unwritable_run = Ok (false, "M") /\
  trace unwritable_run =
  [GetFilesystem "out" (Ok tt);
   Mkdirs "out" (Ok tt);
   SearchModelVersions "name='M'" (Ok three_versions);
   Printed (FoundVersions 3 "M");
   Printed (Exporting (dct_of (mv "1" "None" "r1")));
   ExportRun "r1" "out/r1" (Raise (OtherException "[Errno 28] No space left on device"));
   Printed (Error (OtherException "[Errno 28] No space left on device"))].
Proof. split; reflexivity. Qed.

Lemma rest_exceptions_do_not_abort_witness :
  (forallb rest_only (trace denied_run) = true /\
   outcome denied_run = Ok (true, "M") /\
   tracebacks (trace denied_run) = 1 /\
   In (Printed (Traceback (RestException "PERMISSION_DENIED: no access to run 'r1'")))
      (trace denied_run) /\
   In (WriteJsonFile "out/model.json"
         (doc_of 0 3 [exported "2" "None" "r2"; exported "3" "None" "r3"]) (Ok tt))
      (trace denied_run)) /\
  (forallb rest_only (trace unwritable_run) = false /\
   outcome unwritable_run = Ok (false, "M")).
Proof.
  assert (Hyes : forallb rest_only (trace denied_run) = true) by reflexivity.
  assert (Hno : forallb rest_only (trace unwritable_run) = false) by reflexivity.
  split.
  - split; [exact Hyes |].
    split; [exact (proj1 (proj1 (rest_exceptions_do_not_abort
                     (registry three_versions r1_denied all_exports (Ok tt))
                     all_versions "M" "out" tt) Hyes)) |].
    split; [reflexivity |]. split; pick_event.
  - split; [exact Hno |].
    exact (proj2 (rest_exceptions_do_not_abort
                    (registry three_versions all_runs r1_unwritable (Ok tt))
                    all_versions "M" "out" tt) Hno).
Defined.

Lemma run_not_found_is_skipped_witness :
  forallb run_not_found_only (trace deleted_run) = true /\
  outcome deleted_run = Ok (true, "M") /\
  outcome (_export_model deleted_api all_versions "M" "out" tt) =
  Ok [dct_of (mv "1" "None" "r1"); dct_of (mv "2" "None" "r2");
      dct_of (mv "3" "None" "r3")] /\
  In (WriteJsonFile "out/model.json"
        (doc_of 0 3 [exported "1" "None" "r1"; exported "2" "None" "r2"]) (Ok tt))
     (trace deleted_run) /\
  In (Printed (WarningRunDoesNotExist "3"
        (RestException "RESOURCE_DOES_NOT_EXIST: Run 'r3' not found")))
     (trace deleted_run) /\
  warnings (trace deleted_run) = 1.
Proof.
  assert (Honly : forallb run_not_found_only (trace deleted_run) = true)
    by reflexivity.
  split; [exact Honly |].
  split; [exact (proj1 (run_not_found_is_skipped deleted_api all_versions
                          "M" "out" tt Honly)) |].
  split; [reflexivity |]. split; [pick_event |]. split; [pick_event | reflexivity].
Defined.

Lemma stage_filter_excludes_witness :
  stages production_only <> [] /\
  In (WriteJsonFile "out/model.json"
        (doc_of 1 2 [exported "1" "Production" "r1"]) (Ok tt))
     (trace stage_run) /\
  exists vs,
    In (SearchModelVersions "name='M'" (Ok vs)) (trace stage_run) /\
    num_src_versions (export_info (doc_of 1 2 [exported "1" "Production" "r1"]))
    = length vs /\
    (forall vr, stage_matches (stages production_only) (current_stage vr) = false ->
                ~ In vr (map vr_dict
                           (latest_versions (doc_of 1 2 [exported "1" "Production" "r1"])))) /\
    num_dst_versions (export_info (doc_of 1 2 [exported "1" "Production" "r1"])) <=
    length (filter (fun vr => stage_matches (stages production_only) (current_stage vr)) vs).
Proof.
  assert (Hne : stages production_only <> []) by discriminate.
  assert (Hin : In (WriteJsonFile "out/model.json"
                      (doc_of 1 2 [exported "1" "Production" "r1"]) (Ok tt))
                   (trace stage_run)) by pick_event.
  split; [exact Hne |]. split; [exact Hin |].
  exact (stage_filter_excludes (registry two_stages all_runs all_exports (Ok tt))
           production_only "M" "out" tt _ _ _ Hne Hin).
Defined.

Lemma export_info_counts_witness :
  In (WriteJsonFile "out/model.json"
        (doc_of 0 3 [exported "1" "None" "r1"; exported "2" "None" "r2"]) (Ok tt))
     (trace deleted_run) /\
  num_dst_versions (export_info
    (doc_of 0 3 [exported "1" "None" "r1"; exported "2" "None" "r2"])) <=
  num_src_versions (export_info
    (doc_of 0 3 [exported "1" "None" "r1"; exported "2" "None" "r2"])).
Proof.
  assert (Hin : In (WriteJsonFile "out/model.json"
                      (doc_of 0 3 [exported "1" "None" "r1"; exported "2" "None" "r2"])
                      (Ok tt))
                   (trace deleted_run)) by pick_event.
  split; [exact Hin |].
  destruct (export_info_counts deleted_api all_versions "M" "out" tt _ _ _ Hin)
    as (vs & _ & _ & _ & Hle & _).
  exact Hle.
Defined.

Lemma latest_versions_sorted_witness :
  In (WriteJsonFile "out/model.json"
        (doc_of 0 2 [exported "10" "None" "r10"; exported "2" "None" "r2"]) (Ok tt))
     (trace ten_run) /\
  StronglySorted (key_le version_key)
    [exported "10" "None" "r10"; exported "2" "None" "r2"].
Proof.
  assert (Hin : In (WriteJsonFile "out/model.json"
                      (doc_of 0 2 [exported "10" "None" "r10"; exported "2" "None" "r2"])
                      (Ok tt))
                   (trace ten_run)) by pick_event.
  split; [exact Hin |].
  exact (latest_versions_sorted (registry ten_and_two all_runs all_exports (Ok tt))
           all_versions "M" "out" tt _ _ _ Hin).
Defined.

Lemma export_model_catches_witness :
  outcome (_export_model no_dir_api all_versions "M" "out" tt) =
  Raise (OtherException "[Errno 13] Permission denied: 'out'") /\
  outcome (export_model no_dir_api all_versions "M" "out" tt) = Ok (false, "M") /\
  trace (export_model no_dir_api all_versions "M" "out" tt) =
  trace (_export_model no_dir_api all_versions "M" "out" tt)
  ++ [Printed (Error (OtherException "[Errno 13] Permission denied: 'out'"))].
Proof.
  assert (Hraise : outcome (_export_model no_dir_api all_versions "M" "out" tt) =
                   Raise (OtherException "[Errno 13] Permission denied: 'out'"))
    by reflexivity.
  split; [exact Hraise |].
  exact (proj2 (proj2 (export_model_catches no_dir_api all_versions "M" "out" tt))
           _ Hraise).
Defined.

(** The scenarios of the specification, run. *)

Example stage_scenario :
  outcome stage_run = Ok (true, "M") /\
  written (trace stage_run) = [doc_of 1 2 [exported "1" "Production" "r1"]].
Proof. split; reflexivity. Qed.

Example version_order_scenario :
  String.leb "10" "2" = true /\ (10 <=? 2)%nat = false /\
  map (fun d => map version_key (latest_versions d)) (written (trace ten_run))
  = [["10"; "2"]].
Proof. repeat split. Qed.

Example no_directory_scenario :
  outcome (export_model no_dir_api all_versions "M" "out" tt) = Ok (false, "M") /\
  written (trace (export_model no_dir_api all_versions "M" "out" tt)) = [].
Proof. split; reflexivity. Qed.

Example versions_filter_scenario :
  map (fun d => map version_key (latest_versions d))
    (written (trace (export_model
       (registry two_stages all_runs all_exports (Ok tt))
       {| stages := []; export_run := true; versions := ["2"] |} "M" "out" tt)))
  = [["2"]].
Proof. reflexivity. Qed.

Example dbfs_run_path_scenario :
  In (ExportRun "r1" "/dbfs/models/r1" (Ok tt))
     (trace (export_model (registry two_stages all_runs all_exports (Ok tt))
               production_only "M" "dbfs:/models" tt)).
Proof. pick_event. Qed.

End Scenarios.

(** * Further properties *)

(** ** The stage filter (lines 110-120) and the constructor (lines 18-33) *)

Section Filters.

Lemma split_not_nil (sep : ascii) (s : string) : PyStr.split sep s <> [].
Proof.
  induction s as [|c s IH]; simpl; [discriminate |].
  destruct (Ascii.eqb c sep); [discriminate |].
  destruct (PyStr.split sep s); discriminate.
Qed.

(** Joining the pieces of [s.split(sep)] with [sep] gives [s] back. *)
Lemma concat_split (sep : ascii) (s : string) :
  String.concat (String sep "") (PyStr.split sep s) = s.
Proof.
  induction s as [|c s IH]; simpl; [reflexivity |].
  destruct (Ascii.eqb c sep) eqn:Hc.
  - apply Ascii.eqb_eq in Hc. subst c.
    destruct (PyStr.split sep s) as [|h t] eqn:Hs; [destruct (split_not_nil _ _ Hs) |].
    change (String.concat (String sep "") ("" :: h :: t))
      with (String sep (String.concat (String sep "") (h :: t))).
    rewrite IH. reflexivity.
  - destruct (PyStr.split sep s) as [|h t] eqn:Hs; [destruct (split_not_nil _ _ Hs) |].
    destruct t as [|h' t].
    + simpl in *. congruence.
    + change (String.concat (String sep "") (String c h :: h' :: t))
        with (String c (String.concat (String sep "") (h :: h' :: t))).
      rewrite IH. reflexivity.
Qed.

(** [s.split(sep)] has one piece more than [s] has separators. *)
Lemma length_split (sep : ascii) (s : string) :
  length (PyStr.split sep s) =
  S (length (filter (Ascii.eqb sep) (list_ascii_of_string s))).
Proof.
  induction s as [|c s IH]; [reflexivity |].
  cbn [PyStr.split list_ascii_of_string filter].
  rewrite (Ascii.eqb_sym sep c).
  destruct (Ascii.eqb c sep); cbn [length]; [rewrite IH; reflexivity |].
  destruct (PyStr.split sep s) as [|h t] eqn:Hs; [destruct (split_not_nil _ _ Hs) |].
  exact IH.
Qed.

Lemma lower_ascii_comma (c : ascii) :
  Ascii.eqb (PyStr.lower_ascii c) "," = Ascii.eqb c ",".
Proof. destruct c as [[] [] [] [] [] [] [] []]; reflexivity. Qed.

(** Lower-casing commutes with splitting at commas. *)
Lemma lower_split (s : string) :
  map PyStr.lower (PyStr.split "," s) = PyStr.split "," (PyStr.lower s).
Proof.
  induction s as [|c s IH]; simpl; [reflexivity |].
  rewrite lower_ascii_comma.
  destruct (Ascii.eqb c ","); simpl; [rewrite IH; reflexivity |].
  rewrite <- IH.
  destruct (PyStr.split "," s) as [|h t] eqn:Hs; [destruct (split_not_nil _ _ Hs) |].
  reflexivity.
Qed.

Lemma map_lower_fixed (l : list string) :
  map PyStr.lower (map PyStr.lower l) = map PyStr.lower l.
Proof.
  rewrite map_map. apply map_ext. intros s. apply lower_idem.
Qed.

(** The filter that [_normalize_stages] returns, whatever it prints. *)
Lemma normalized_stages (a : StagesArg) :
  snd (_normalize_stages a) =
  match a with
  | StagesNone => []
  | StagesStr s => map PyStr.lower (PyStr.split "," s)
  | StagesList l => map PyStr.lower l
  end.
Proof. destruct a; reflexivity. Qed.

(** X1: for a [stages] argument given as a string, the normalized filter
    joined with commas is the lower-cased argument: the split drops nothing
    and trims nothing, and lower-casing is the only change. *)
Theorem normalize_stages_round_trip (s : string) :
  String.concat "," (snd (_normalize_stages (StagesStr s))) = PyStr.lower s.
Proof.
  rewrite normalized_stages, lower_split. apply (concat_split ","%char).
Qed.

(** X2: [_normalize_stages] is idempotent: normalizing the filter it
    returned gives the same filter and prints the same warnings. *)
Theorem normalize_stages_idempotent (a : StagesArg) :
  _normalize_stages (StagesList (snd (_normalize_stages a))) = _normalize_stages a.
Proof.
  destruct a as [|s|l]; simpl; [reflexivity | |];
    rewrite map_lower_fixed; reflexivity.
Qed.

(** X3: a [stages] argument given as a string always activates the stage
    filter, whatever the string: the filter has one element more than the
    string has commas, and with any non-empty list of versions the
    constructor raises the configuration error. *)
Theorem string_stages_always_filter (s : string) (v : string)
    (vs : list string) (er : bool) :
  snd (_normalize_stages (StagesStr s)) <> [] /\
  length (snd (_normalize_stages (StagesStr s))) =
  S (length (filter (Ascii.eqb ",") (list_ascii_of_string s))) /\
  snd (__init__ (StagesStr s) (Some (v :: vs)) er) =
  Raise (MlflowExportImportException (map PyStr.lower (PyStr.split "," s)) (v :: vs)).
Proof.
  assert (Hne : map PyStr.lower (PyStr.split "," s) <> []).
  { intros H. apply map_eq_nil in H. exact (split_not_nil _ _ H). }
  split; [rewrite normalized_stages; exact Hne |].
  split.
  - rewrite normalized_stages, length_map. apply length_split.
  - rewrite init_outcome, normalized_stages.
    destruct (map PyStr.lower (PyStr.split "," s)); [congruence | reflexivity].
Qed.

(** The constructor returns an exporter only with these attributes. *)
Lemma init_ok (a : StagesArg) (v : option (list string)) (er : bool)
    (self : ModelExporter) :
  snd (__init__ a v er) = Ok self ->
  self = {| stages := snd (_normalize_stages a);
            export_run := er;
            versions := versions_or_empty v |} /\
  (snd (_normalize_stages a) = [] \/ versions_or_empty v = []).
Proof.
  rewrite init_outcome.
  destruct (snd (_normalize_stages a)) as [|s0 st];
    destruct (versions_or_empty v) as [|v0 vl]; simpl; intros H;
    inversion H; auto.
Qed.

(** X4: the invariant of a constructed exporter: at most one of the two
    filters is active, every stage of the filter is in lower case, and
    [export_run] and the versions are the arguments given. *)
Theorem init_invariant (a : StagesArg) (v : option (list string)) (er : bool)
    (self : ModelExporter) :
  snd (__init__ a v er) = Ok self ->
  (stages self = [] \/ versions self = []) /\
  Forall (fun stage => PyStr.lower stage = stage) (stages self) /\
  versions self = versions_or_empty v /\
  export_run self = er.
Proof.
  intros H. destruct (init_ok _ _ _ _ H) as [-> Hone]. simpl.
  split; [exact Hone |]. split; [| split; reflexivity].
  rewrite normalized_stages.
  destruct a as [|s|l]; [constructor | |];
    apply Forall_forall; intros x Hx; apply in_map_iff in Hx;
    destruct Hx as [y [<- _]]; apply lower_idem.
Qed.

Lemma init_invariant_witness :
  snd (__init__ (StagesList ["Production"; "STAGING"]) None false) =
  Ok {| stages := ["production"; "staging"]; export_run := false; versions := [] |} /\
  Forall (fun stage => PyStr.lower stage = stage) ["production"; "staging"].
Proof.
  assert (H : snd (__init__ (StagesList ["Production"; "STAGING"]) None false) =
              Ok {| stages := ["production"; "staging"]; export_run := false;
                    versions := [] |}) by reflexivity.
  split; [exact H |].
  exact (proj1 (proj2 (init_invariant _ _ _ _ H))).
Defined.




End Filters.

(** ** Paths outside DBFS (lines 65-66) *)

Section PlainPaths.

Lemma contains_cons (p : string) (c : ascii) (s : string) :
  PyStr.contains p (String c s) =
  String.prefix p (String c s) || PyStr.contains p s.
Proof. reflexivity. Qed.

Lemma contains_append (p a x : string) :
  PyStr.contains p a = true -> PyStr.contains p (a ++ x) = true.
Proof.
  induction a as [|c a IH].
  - destruct p; simpl; [destruct x; reflexivity | discriminate].
  - change (String c a ++ x)%string with (String c (a ++ x)).
    rewrite !contains_cons. intros H. apply orb_true_iff in H.
    apply orb_true_iff. destruct H as [H | H]; [left | right; exact (IH H)].
    exact (prefix_append p (String c a) x H).
Qed.

(** No occurrence of [dbfs:] ends on a [/] or runs over one. *)
Lemma dbfs_stops_at_slash (u b : string) :
  String.prefix "dbfs:" (u ++ "/" ++ b) = true -> String.prefix "dbfs:" u = true.
Proof.
  intros H. apply prefix_iff in H. destruct H as [r Hr].
  apply prefix_iff.
  destruct u as [|c1 u]; [simpl in Hr; congruence |].
  destruct u as [|c2 u]; [simpl in Hr; congruence |].
  destruct u as [|c3 u]; [simpl in Hr; congruence |].
  destruct u as [|c4 u]; [simpl in Hr; congruence |].
  destruct u as [|c5 u]; [simpl in Hr; congruence |].
  simpl in Hr. exists u. simpl. congruence.
Qed.

Lemma contains_before_slash (a b : string) :
  PyStr.contains "dbfs:" a = false ->
  PyStr.contains "dbfs:" b = false ->
  PyStr.contains "dbfs:" (a ++ "/" ++ b) = false.
Proof.
  intros Ha Hb. induction a as [|c a IH].
  - exact Hb.
  - change (String c a ++ "/" ++ b)%string with (String c (a ++ "/" ++ b)).
    rewrite contains_cons in Ha |- *.
    apply orb_false_iff in Ha. destruct Ha as [Hpre Ha].
    rewrite (IH Ha), orb_false_r.
    destruct (String.prefix "dbfs:" (String c (a ++ "/" ++ b))) eqn:H; [| reflexivity].
    apply (dbfs_stops_at_slash (String c a) b) in H. congruence.
Qed.

Lemma endswith_slash (a : string) :
  PyStr.endswith a "/" = true -> exists a0, a = (a0 ++ "/")%string.
Proof.
  induction a as [|c a IH].
  - discriminate.
  - change (PyStr.endswith (String c a) "/")
      with ((String c a =? "/") || PyStr.endswith a "/").
    intros H. apply orb_true_iff in H. destruct H as [H | H].
    + apply String.eqb_eq in H. exists "". exact H.
    + destruct (IH H) as [a0 ->]. exists (String c a0). reflexivity.
Qed.

Lemma contains_join (a b : string) :
  PyStr.contains "dbfs:" a = false ->
  PyStr.contains "dbfs:" b = false ->
  PyStr.contains "dbfs:" (PyStr.join a b) = false.
Proof.
  intros Ha Hb. unfold PyStr.join.
  destruct (PyStr.startswith b "/"); [exact Hb |].
  destruct (a =? "") eqn:He.
  - apply String.eqb_eq in He. subst a. exact Hb.
  - simpl. destruct (PyStr.endswith a "/") eqn:Hs.
    + destruct (endswith_slash _ Hs) as [a0 ->].
      rewrite append_assoc. apply contains_before_slash; [| exact Hb].
      destruct (PyStr.contains "dbfs:" a0) eqn:H0; [| reflexivity].
      rewrite (contains_append _ _ "/" H0) in Ha. discriminate.
    + apply contains_before_slash; assumption.
Qed.

(** X6: when neither [output_dir] nor [run_id] contains [dbfs:], the
    per-run output path is the path that [os.path.join] built: the rewrite
    of line 66 changes nothing, and joining the two cannot create an
    occurrence. *)
Theorem opath_without_dbfs (output_dir run_id : string) :
  PyStr.contains "dbfs:" output_dir = false ->
  PyStr.contains "dbfs:" run_id = false ->
  opath output_dir run_id = PyStr.join output_dir run_id.
Proof.
  intros Hdir Hrun. unfold opath.
  apply replace_dbfs_absent, contains_join; assumption.
Qed.

Lemma opath_without_dbfs_witness :
  PyStr.contains "dbfs:" "s3://bucket/dbfs/models/" = false /\
  PyStr.contains "dbfs:" "0a1b2c" = false /\
  opath "s3://bucket/dbfs/models/" "0a1b2c" = "s3://bucket/dbfs/models/0a1b2c".
Proof.
  split; [reflexivity | split; [reflexivity |]].
  exact (opath_without_dbfs "s3://bucket/dbfs/models/" "0a1b2c" eq_refl eq_refl).
Defined.

End PlainPaths.

(** ** The calls of the loop (lines 59-85) *)

Section Calls.

Context {W Fs RegisteredModel Json Info : Type}.
Variable api : @Api W Fs RegisteredModel Json Info.
Variable self : ModelExporter.

Ltac break_match :=
  match goal with
  | H : context [match ?x with _ => _ end] |- _ => destruct x eqn:?
  | |- context [match ?x with _ => _ end] => destruct x eqn:?
  end.

Ltac invert_eq :=
  match goal with
  | H : (_, _) = (_, _) |- _ => inversion H; clear H; subst
  | H : Some _ = Some _ |- _ => inversion H; clear H; subst
  | H : Ok _ = Ok _ |- _ => inversion H; clear H; subst
  | H : Raise _ = Raise _ |- _ => inversion H; clear H; subst
  end.

Ltac run_cases :=
  unfold export_version, try_except, try_body, except_rest, bind, call, print, ret in *;
  repeat (first [invert_eq | break_match]; simpl in *; try discriminate).

Ltac export_cases :=
  unfold export_model, _export_model, try_except, bind, call, print, ret in *;
  repeat (first [invert_eq | break_match]; simpl in *; try discriminate).

Ltac in_cases H :=
  simpl in H; repeat rewrite in_app_iff in H; simpl in H;
  repeat match goal with
         | Hd : _ \/ _ |- _ => destruct Hd
         | Hd : False |- _ => destruct Hd
         end.

Lemma call_of_more (flag : bool) (output_dir : string) (vr : ModelVersion)
    (t1 t2 : list (@Event Fs RegisteredModel Json Info)) (ev : Event) :
  (forall e, In e t1 -> In e t2) ->
  call_of flag output_dir vr t1 ev -> call_of flag output_dir vr t2 ev.
Proof.
  intros Hsub. destruct ev; simpl; auto.
  intros [run [H1 H2]]. exists run. auto.
Qed.

(** The calls of one iteration are about its version. *)
Lemma export_version_calls (output_dir : string) (vr : ModelVersion)
    (acc : Acc) (w w' : W) (r : result Acc) (t : list Event) (ev : Event) :
  export_version api self output_dir vr acc w = (r, w', t) ->
  In ev t -> in_try ev = true ->
  selected self vr = true /\ call_of (export_run self) output_dir vr t ev.
Proof.
  intros H Hin Hev.
  run_cases; in_cases Hin; subst; try discriminate;
    (split; [reflexivity |]); simpl; auto;
    (eexists; split; [| reflexivity]); auto 10.
Qed.

Lemma for_versions_calls (output_dir : string) (vs : list ModelVersion)
    (acc : Acc) (w w' : W) (r : result Acc) (t : list Event) (ev : Event) :
  for_versions api self output_dir vs acc w = (r, w', t) ->
  In ev t -> in_try ev = true ->
  exists vr, In vr vs /\ selected self vr = true /\
             call_of (export_run self) output_dir vr t ev.
Proof.
  revert acc w t. induction vs as [|vr vs IH]; intros acc w t H Hin Hev.
  - inversion H; subst. destruct Hin.
  - rewrite for_versions_cons in H.
    destruct (export_version api self output_dir vr acc w) as [[[acc1|e] w1] t1] eqn:Hstep.
    + destruct (for_versions api self output_dir vs acc1 w1) as [[r2 w2] t2] eqn:Hrest.
      inversion H; subst. clear H.
      apply in_app_iff in Hin. destruct Hin as [Hin | Hin].
      * destruct (export_version_calls _ _ _ _ _ _ _ _ Hstep Hin Hev) as [Hs Hc].
        exists vr. split; [left; reflexivity |]. split; [exact Hs |].
        eapply call_of_more; [| exact Hc]. intros e0 He0. apply in_app_iff. auto.
      * destruct (IH _ _ _ Hrest Hin Hev) as (vr' & Hvr & Hs & Hc).
        exists vr'. split; [right; exact Hvr |]. split; [exact Hs |].
        eapply call_of_more; [| exact Hc]. intros e0 He0. apply in_app_iff. auto.
    + inversion H; subst. clear H.
      destruct (export_version_calls _ _ _ _ _ _ _ _ Hstep Hin Hev) as [Hs Hc].
      exists vr. split; [left; reflexivity |]. auto.
Qed.

(** A call of the [try] in a trace of [_export_model] was made by the loop,
    over the versions that the registry returned. *)
Lemma _export_model_loop (model_name output_dir : string) (w w' : W)
    (r : result (list VersionRecord)) (t : list Event) (ev : Event) :
  _export_model api self model_name output_dir w = (r, w', t) ->
  In ev t -> in_try ev = true ->
  exists vs acc w1 rl w2 tl,
    In (SearchModelVersions ("name='" ++ model_name ++ "'") (Ok vs)) t /\
    for_versions api self output_dir vs acc w1 = (rl, w2, tl) /\
    In ev tl /\ (forall e, In e tl -> In e t).
Proof.
  intros H Hin Hev.
  export_cases; in_cases Hin; subst; try discriminate;
    match goal with
    | Hl : for_versions _ _ _ ?vs ?acc ?w1 = (?rl, ?w2, ?tl) |- _ =>
        exists vs, acc, w1, rl, w2, tl;
        (split; [simpl; auto |]); (split; [exact Hl |]); (split; [assumption |]);
        intros e0 He0; simpl; rewrite ?in_app_iff; auto 10
    end.
Qed.

(** The same for [export_model]. *)
Lemma export_model_loop (model_name output_dir : string) (w : W) (ev : Event) :
  In ev (trace (export_model api self model_name output_dir w)) ->
  in_try ev = true ->
  exists vs vr,
    In (SearchModelVersions ("name='" ++ model_name ++ "'") (Ok vs))
       (trace (export_model api self model_name output_dir w)) /\
    In vr vs /\ selected self vr = true /\
    call_of (export_run self) output_dir vr
      (trace (export_model api self model_name output_dir w)) ev.
Proof.
  intros Hin Hev.
  assert (Hcall : forall l, ev <> Printed l) by (intros l ->; discriminate).
  assert (Hback : forall e, In e (trace (_export_model api self model_name output_dir w)) ->
                            In e (trace (export_model api self model_name output_dir w))).
  { intros e0 He0. rewrite export_model_run. unfold trace in *.
    destruct (_export_model api self model_name output_dir w) as [[[m|e] w1] t1];
      simpl in *; [exact He0 | apply in_app_iff; auto]. }
  apply export_model_calls in Hin; [| exact Hcall].
  destruct (_export_model api self model_name output_dir w) as [[r w1] t1] eqn:Hrun.
  unfold trace in Hin, Hback. simpl in Hin, Hback.
  destruct (_export_model_loop _ _ _ _ _ _ _ Hrun Hin Hev)
    as (vs & acc & w2 & rl & w3 & tl & Hs & Hloop & Hin' & Hsub).
  destruct (for_versions_calls _ _ _ _ _ _ _ _ Hloop Hin' Hev) as (vr & Hvr & Hsel & Hc).
  exists vs, vr. split; [apply Hback, Hs |]. split; [exact Hvr |].
  split; [exact Hsel |].
  eapply call_of_more; [| exact Hc]. intros e0 He0. apply Hback, Hsub, He0.
Qed.

(** X7: an exporter built with [export_run=False] never calls the run
    exporter, whatever the registry returns and whatever fails. *)
Theorem no_export_run_when_disabled (model_name output_dir : string) (w : W)
    (rid path : string) (r : result unit) :
  export_run self = false ->
  ~ In (ExportRun rid path r) (trace (export_model api self model_name output_dir w)).
Proof.
  intros Hoff Hin.
  destruct (export_model_loop _ _ _ _ Hin eq_refl) as (vs & vr & _ & _ & _ & Hc).
  simpl in Hc. destruct Hc as [Hon _]. congruence.
Qed.

(** X8: every call of the run exporter is for the run of a version that the
    registry returned and that passed the filters, and its output path is
    the path of lines 65-66 for that run under [output_dir]. *)
Theorem export_run_targets (model_name output_dir : string) (w : W)
    (rid path : string) (r : result unit) :
  let run := export_model api self model_name output_dir w in
  In (ExportRun rid path r) (trace run) ->
  exists vs vr,
    In (SearchModelVersions ("name='" ++ model_name ++ "'") (Ok vs)) (trace run) /\
    In vr vs /\ selected self vr = true /\
    rid = run_id vr /\ path = opath output_dir rid.
Proof.
  intros run Hin.
  destruct (export_model_loop _ _ _ _ Hin eq_refl) as (vs & vr & Hs & Hvr & Hsel & Hc).
  simpl in Hc. destruct Hc as (_ & -> & ->).
  exists vs, vr. auto.
Qed.

(** X9: lookups are made for selected versions only: every [get_run] call
    is for the run of a version that the registry returned and that passed
    the filters, and every [get_experiment] call is for the experiment of a
    run that such a [get_run] call returned. *)
Theorem lookups_of_selected_only (model_name output_dir : string) (w : W) :
  let run := export_model api self model_name output_dir w in
  (forall rid r, In (GetRun rid r) (trace run) ->
     exists vs vr,
       In (SearchModelVersions ("name='" ++ model_name ++ "'") (Ok vs)) (trace run) /\
       In vr vs /\ selected self vr = true /\ rid = run_id vr) /\
  (forall eid r, In (GetExperiment eid r) (trace run) ->
     exists vs vr found,
       In (SearchModelVersions ("name='" ++ model_name ++ "'") (Ok vs)) (trace run) /\
       In vr vs /\ selected self vr = true /\
       In (GetRun (run_id vr) (Ok found)) (trace run) /\
       eid = experiment_id (info found)).
Proof.
  intros run. split.
  - intros rid r Hin.
    destruct (export_model_loop _ _ _ _ Hin eq_refl) as (vs & vr & Hs & Hvr & Hsel & Hc).
    exists vs, vr. auto.
  - intros eid r Hin.
    destruct (export_model_loop _ _ _ _ Hin eq_refl)
      as (vs & vr & Hs & Hvr & Hsel & found & Hf & Heq).
    exists vs, vr, found. auto 10.
Qed.

End Calls.

(** ** The manifest and the document (lines 86-107) *)

Section Outputs.

Context {W Fs RegisteredModel Json Info : Type}.
Variable api : @Api W Fs RegisteredModel Json Info.
Variable self : ModelExporter.

Ltac break_match :=
  match goal with
  | H : context [match ?x with _ => _ end] |- _ => destruct x eqn:?
  | |- context [match ?x with _ => _ end] => destruct x eqn:?
  end.

Ltac invert_eq :=
  match goal with
  | H : (_, _) = (_, _) |- _ => inversion H; clear H; subst
  | H : Some _ = Some _ |- _ => inversion H; clear H; subst
  | H : Ok _ = Ok _ |- _ => inversion H; clear H; subst
  | H : Raise _ = Raise _ |- _ => inversion H; clear H; subst
  end.

Ltac run_cases :=
  unfold export_version, try_except, try_body, except_rest, bind, call, print, ret in *;
  repeat (first [invert_eq | break_match]; simpl in *; try discriminate).

Ltac export_cases :=
  unfold export_model, _export_model, try_except, bind, call, print, ret in *;
  repeat (first [invert_eq | break_match]; simpl in *; try discriminate).

Ltac in_cases H :=
  simpl in H; repeat rewrite in_app_iff in H; simpl in H;
  repeat match goal with
         | Hd : _ \/ _ |- _ => destruct Hd
         | Hd : False |- _ => destruct Hd
         end.

(** The trace of [export_model] is the trace of [_export_model], with the
    error line after it when [_export_model] raised. *)
Lemma export_model_trace (model_name output_dir : string) (w : W) :
  exists tail,
    trace (export_model api self model_name output_dir w) =
    trace (_export_model api self model_name output_dir w) ++ tail /\
    (tail = [] \/ exists e, tail = [Printed (Error e)]).
Proof.
  rewrite export_model_run. unfold trace.
  destruct (_export_model api self model_name output_dir w) as [[[m|e] w1] t1]; simpl.
  - exists []. rewrite app_nil_r. auto.
  - exists [Printed (Error e)]. eauto.
Qed.

Lemma written_app (t1 t2 : list (@Event Fs RegisteredModel Json Info)) :
  written (t1 ++ t2) = written t1 ++ written t2.
Proof. unfold written. apply flat_map_app. Qed.

Lemma written_loop (t : list (@Event Fs RegisteredModel Json Info)) :
  forallb loop_event t = true -> written t = [].
Proof.
  induction t as [|ev t IH]; simpl; [reflexivity |].
  intros H. apply andb_true_iff in H. destruct H as [Hev Ht].
  rewrite (IH Ht). destruct ev; simpl in *; try discriminate; reflexivity.
Qed.

Lemma filter_all {A : Type} (f : A -> bool) (l : list A) :
  (forall x, f x = true) -> filter f l = l.
Proof.
  intros Hf. induction l as [|x l IH]; simpl; [reflexivity |].
  rewrite Hf, IH. reflexivity.
Qed.

(** X10: whenever [_export_model] returns, its manifest is made of the
    records of the versions that passed the filters, in the order of the
    registry response, whether or not their runs could be exported; with no
    filter set it has a record for every version of the response. *)
Theorem manifest_in_registry_order (model_name output_dir : string) (w : W)
    (m : list VersionRecord) :
  let run := _export_model api self model_name output_dir w in
  outcome run = Ok m ->
  exists vs,
    In (SearchModelVersions ("name='" ++ model_name ++ "'") (Ok vs)) (trace run) /\
    m = map dct_of (filter (selected self) vs) /\
    (stages self = [] -> versions self = [] -> m = map dct_of vs).
Proof.
  intros run. subst run. unfold outcome, trace.
  destruct (_export_model api self model_name output_dir w) as [[r w1] t1] eqn:Hrun.
  simpl. intros ->.
  destruct (_export_model_run _ _ _ _ _ _ _ _ Hrun)
    as [(fs & u & vs & acc & mo & ci & rw & w2 & w3 & tl & Hloop & Ht & Hr)
       | (e & He & _)]; [| discriminate].
  destruct rw as [u'|e]; [| discriminate]. inversion Hr; subst m.
  destruct (for_versions_ok _ _ _ _ _ _ _ _ _ Hloop) as [Hman _].
  simpl in Hman. exists vs. subst t1.
  split; [simpl; auto |]. split; [exact Hman |].
  intros Hs Hv. rewrite Hman, filter_all; [reflexivity |].
  intros x. unfold selected. rewrite Hs, Hv. reflexivity.
Qed.

(** X11: [export_model] returns [(true, model_name)] exactly when
    [write_json_file] was called and returned: a failed write, and any
    failure that keeps the document from being written, gives
    [(false, model_name)]. *)
Theorem export_succeeds_iff_written (model_name output_dir : string) (w : W) :
  let run := export_model api self model_name output_dir w in
  outcome run = Ok (true, model_name) <->
  exists path doc, In (WriteJsonFile path doc (Ok tt)) (trace run).
Proof.
  intros run. subst run. rewrite export_model_run. unfold outcome, trace.
  destruct (_export_model api self model_name output_dir w) as [[r w1] t1] eqn:Hrun.
  destruct (_export_model_run _ _ _ _ _ _ _ _ Hrun)
    as [(fs & u & vs & acc & mo & ci & rw & w2 & w3 & tl & Hloop & Ht & Hr)
       | (e & He & _ & Hno)].
  - apply for_versions_trace in Hloop. rewrite forallb_forall in Hloop.
    destruct rw as [[]|e]; subst r; simpl.
    + split; [| reflexivity]. intros _. do 2 eexists. subst t1.
      rewrite !in_app_iff. right. right. simpl. auto 10.
    + split; [discriminate |]. intros (path & doc & Hin). exfalso.
      subst t1. in_cases Hin; try discriminate.
      match goal with
      | Hi : In _ tl |- _ => apply Hloop in Hi; discriminate
      end.
  - subst r. simpl. split; [discriminate |].
    intros (path & doc & Hin). exfalso.
    apply in_app_iff in Hin. destruct Hin as [Hin | [Hin | []]];
      [exact (Hno _ _ _ Hin) | discriminate].
Qed.

(** X12: [export_model] hands at most one document to [write_json_file],
    and the path is [os.path.join(output_dir, "model.json")]: unlike the
    per-run path it is not rewritten for DBFS. *)
Theorem single_write_at_model_json (model_name output_dir : string) (w : W)
    (path : string) (doc : Document) (rr : result unit) :
  let run := export_model api self model_name output_dir w in
  In (WriteJsonFile path doc rr) (trace run) ->
  path = PyStr.join output_dir "model.json" /\ written (trace run) = [doc].
Proof.
  intros run Hin. subst run.
  destruct (export_model_trace model_name output_dir w) as (tail & Ht & Htail).
  rewrite Ht in *. clear Ht. unfold trace in *.
  destruct (_export_model api self model_name output_dir w) as [[r w1] t1] eqn:Hrun.
  simpl in *.
  assert (Hin1 : In (WriteJsonFile path doc rr) t1).
  { apply in_app_iff in Hin. destruct Hin as [Hin | Hin]; [exact Hin |].
    destruct Htail as [-> | [e ->]]; in_cases Hin; discriminate. }
  assert (Hw : written tail = []).
  { destruct Htail as [-> | [e ->]]; reflexivity. }
  rewrite written_app, Hw, app_nil_r.
  destruct (_export_model_run _ _ _ _ _ _ _ _ Hrun)
    as [(fs & u & vs & acc & mo & ci & rw & w2 & w3 & tl & Hloop & Ht1 & Hr)
       | (e & He & _ & Hno)]; [| destruct (Hno _ _ _ Hin1)].
  apply for_versions_trace in Hloop.
  subst t1. rewrite !written_app, (written_loop _ Hloop). simpl.
  rewrite forallb_forall in Hloop.
  in_cases Hin1; try discriminate;
    first [ match goal with
            | Hi : In _ tl |- _ => apply Hloop in Hi; discriminate
            end
          | match goal with
            | He : WriteJsonFile _ _ _ = WriteJsonFile _ _ _ |- _ =>
                inversion He; subst
            end; split; reflexivity ].
Qed.

(** The lines of the loop are not the summary line. *)
Lemma export_version_no_summary (output_dir : string) (vr : ModelVersion)
    (acc : Acc) (w w' : W) (r : result Acc) (t : list Event)
    (a b : nat) (n : string) :
  export_version api self output_dir vr acc w = (r, w', t) ->
  ~ In (Printed (ExportedVersions a b n)) t.
Proof. intros H Hin. run_cases; in_cases Hin; discriminate. Qed.

Lemma for_versions_no_summary (output_dir : string) (vs : list ModelVersion)
    (acc : Acc) (w w' : W) (r : result Acc) (t : list Event)
    (a b : nat) (n : string) :
  for_versions api self output_dir vs acc w = (r, w', t) ->
  ~ In (Printed (ExportedVersions a b n)) t.
Proof.
  revert acc w t. induction vs as [|vr vs IH]; intros acc w t H Hin.
  - inversion H; subst. destruct Hin.
  - rewrite for_versions_cons in H.
    destruct (export_version api self output_dir vr acc w) as [[[acc1|e] w1] t1] eqn:Hstep.
    + destruct (for_versions api self output_dir vs acc1 w1) as [[r2 w2] t2] eqn:Hrest.
      inversion H; subst. apply in_app_iff in Hin. destruct Hin as [Hin | Hin].
      * exact (export_version_no_summary _ _ _ _ _ _ _ _ _ _ Hstep Hin).
      * exact (IH _ _ _ Hrest Hin).
    + inversion H; subst.
      exact (export_version_no_summary _ _ _ _ _ _ _ _ _ _ Hstep Hin).
Qed.

(** The summary line is printed after a loop that completed. *)
Lemma _export_model_summary (model_name output_dir : string) (w w' : W)
    (r : result (list VersionRecord)) (t : list Event) (a b : nat) (n : string) :
  _export_model api self model_name output_dir w = (r, w', t) ->
  In (Printed (ExportedVersions a b n)) t ->
  exists vs acc w1 w2 tl path doc rr,
    for_versions api self output_dir vs acc0 w1 = (Ok acc, w2, tl) /\
    a = exported_versions acc /\
    b = length (PyStr.sort version_key (output_versions acc)) /\
    n = model_name /\
    In (WriteJsonFile path doc rr) t /\
    num_dst_versions (export_info doc) = b.
Proof.
  intros H Hin.
  export_cases; in_cases Hin; try discriminate;
    try match goal with
        | Hl : for_versions _ _ _ _ _ _ = _, Hi : In (Printed (ExportedVersions _ _ _)) _ |- _ =>
            destruct (for_versions_no_summary _ _ _ _ _ _ _ _ _ _ Hl Hi)
        end;
    match goal with
    | He : Printed _ = Printed _ |- _ => inversion He; subst; clear He
    end;
    match goal with
    | Hl : for_versions _ _ _ ?vs _ ?w1 = (Ok ?acc, ?w2, ?tl) |- _ =>
        exists vs, acc, w1, w2, tl
    end;
    do 3 eexists; (split; [eassumption |]);
    (split; [reflexivity |]); (split; [reflexivity |]); (split; [reflexivity |]);
    (split; [rewrite !in_app_iff; simpl; auto 10 | reflexivity]).
Qed.

(** X13: the two counts of the summary line [Exported a/b versions] are
    always equal, and equal to [num_dst_versions] of the document handed to
    [write_json_file]: the counter of line 79 and the output sequence grow
    together. *)
Theorem summary_counts_agree (model_name output_dir : string) (w : W)
    (a b : nat) (n : string) :
  let run := export_model api self model_name output_dir w in
  In (Printed (ExportedVersions a b n)) (trace run) ->
  a = b /\ n = model_name /\
  exists path doc rr,
    In (WriteJsonFile path doc rr) (trace run) /\
    num_dst_versions (export_info doc) = b.
Proof.
  intros run Hin. subst run.
  destruct (export_model_trace model_name output_dir w) as (tail & Ht & Htail).
  rewrite Ht in *. clear Ht. unfold trace in *.
  destruct (_export_model api self model_name output_dir w) as [[r w1] t1] eqn:Hrun.
  simpl in *.
  assert (Hin1 : In (Printed (ExportedVersions a b n)) t1).
  { apply in_app_iff in Hin. destruct Hin as [Hin | Hin]; [exact Hin |].
    destruct Htail as [-> | [e ->]]; in_cases Hin; discriminate. }
  destruct (_export_model_summary _ _ _ _ _ _ _ _ _ Hrun Hin1)
    as (vs & acc & w2 & w3 & tl & path & doc & rr & Hloop & -> & -> & -> & Hw & Hd).
  destruct (for_versions_ok _ _ _ _ _ _ _ _ _ Hloop) as [_ (l & Hl & _ & _ & He)].
  simpl in Hl, He. split; [rewrite sort_length, Hl; exact He |].
  split; [reflexivity |].
  exists path, doc, rr. split; [apply in_app_iff; auto | exact Hd].
Qed.

(** X14: the document handed to [write_json_file] carries the JSON of the
    registered model that [get_registered_model] returned for [model_name],
    the metadata that [create_export_info] returned, and the sizes of the
    two filters of the exporter. *)
Theorem document_metadata (model_name output_dir : string) (w : W)
    (path : string) (doc : Document) (rr : result unit) :
  let run := export_model api self model_name output_dir w in
  In (WriteJsonFile path doc rr) (trace run) ->
  exists mo ci,
    In (GetRegisteredModel model_name (Ok mo)) (trace run) /\
    In (CreateExportInfo (Ok ci)) (trace run) /\
    registered_model doc = message_to_json api mo /\
    created (export_info doc) = ci /\
    num_target_stages (export_info doc) = length (stages self) /\
    num_target_versions (export_info doc) = length (versions self).
Proof.
  intros run Hin. subst run.
  destruct (export_model_trace model_name output_dir w) as (tail & Ht & Htail).
  rewrite Ht in *. clear Ht. unfold trace in *.
  destruct (_export_model api self model_name output_dir w) as [[r w1] t1] eqn:Hrun.
  simpl in *.
  assert (Hin1 : In (WriteJsonFile path doc rr) t1).
  { apply in_app_iff in Hin. destruct Hin as [Hin | Hin]; [exact Hin |].
    destruct Htail as [-> | [e ->]]; in_cases Hin; discriminate. }
  destruct (_export_model_run _ _ _ _ _ _ _ _ Hrun)
    as [(fs & u & vs & acc & mo & ci & rw & w2 & w3 & tl & Hloop & Ht1 & Hr)
       | (e & He & _ & Hno)]; [| destruct (Hno _ _ _ Hin1)].
  apply for_versions_trace in Hloop. rewrite forallb_forall in Hloop.
  exists mo, ci. subst t1.
  split; [rewrite !in_app_iff; simpl; auto 10 |].
  split; [rewrite !in_app_iff; simpl; auto 10 |].
  in_cases Hin1; try discriminate;
    first [ match goal with
            | Hi : In _ tl |- _ => apply Hloop in Hi; discriminate
            end
          | match goal with
            | He : WriteJsonFile _ _ _ = WriteJsonFile _ _ _ |- _ =>
                inversion He; subst
            end; repeat split ].
Qed.

Lemma selected_version (vr : ModelVersion) :
  versions self <> [] ->
  selected self vr = true ->
  In (version vr) (versions self).
Proof.
  intros Hne Hsel. unfold selected in Hsel.
  apply andb_true_iff in Hsel. destruct Hsel as [_ Hv].
  apply length_pos_iff in Hne. rewrite Hne in Hv. simpl in Hv.
  rewrite negb_involutive in Hv.
  unfold PyStr.py_in in Hv. apply existsb_exists in Hv.
  destruct Hv as [v [Hin Heq]]. apply String.eqb_eq in Heq. congruence.
Qed.

(** X15: under an active version filter, every entry of the output
    sequence has a version identifier that is an element of the filter,
    compared as a string, and [num_dst_versions] is at most the number of
    versions of the registry response whose identifier is in the filter. *)
Theorem version_filter_excludes (model_name output_dir : string) (w : W)
    (path : string) (doc : Document) (rr : result unit) :
  let run := export_model api self model_name output_dir w in
  versions self <> [] ->
  In (WriteJsonFile path doc rr) (trace run) ->
  exists vs,
    In (SearchModelVersions ("name='" ++ model_name ++ "'") (Ok vs)) (trace run) /\
    (forall x, In x (latest_versions doc) -> In (version_key x) (versions self)) /\
    num_dst_versions (export_info doc) <=
    length (filter (fun vr => PyStr.py_in (version vr) (versions self)) vs).
Proof.
  intros run Hne Hin.
  destruct (export_model_document _ _ _ _ _ _ _ _ Hin)
    as (vs & l & Hs & Hsrc & Hdst & Hl & Hf & Hlen & Hlook).
  exists vs. split; [exact Hs |].
  rewrite Forall_forall in Hf. split.
  - intros x Hx. rewrite Hl in Hx. apply sort_in in Hx.
    unfold version_key. apply selected_version; [exact Hne |]. apply Hf, Hx.
  - rewrite Hdst, Hl, sort_length.
    eapply Nat.le_trans; [exact Hlen |].
    apply filter_length_mono. intros x Hx.
    unfold PyStr.py_in. apply existsb_exists. exists (version x).
    split; [apply selected_version; assumption | apply String.eqb_refl].
Qed.

End Outputs.

(** ** Runs in which every call returns *)

Section CleanRuns.

Context {W Fs RegisteredModel Json Info : Type}.
Variable api : @Api W Fs RegisteredModel Json Info.
Variable self : ModelExporter.

Ltac break_match :=
  match goal with
  | H : context [match ?x with _ => _ end] |- _ => destruct x eqn:?
  | |- context [match ?x with _ => _ end] => destruct x eqn:?
  end.

Ltac invert_eq :=
  match goal with
  | H : (_, _) = (_, _) |- _ => inversion H; clear H; subst
  | H : Some _ = Some _ |- _ => inversion H; clear H; subst
  | H : Ok _ = Ok _ |- _ => inversion H; clear H; subst
  | H : Raise _ = Raise _ |- _ => inversion H; clear H; subst
  end.

Ltac run_cases :=
  unfold export_version, try_except, try_body, except_rest, bind, call, print, ret in *;
  repeat (first [invert_eq | break_match]; simpl in *; try discriminate).

Lemma insert_sorted_map {A B : Type} (f : A -> B) (key : B -> string)
    (x : A) (l : list A) :
  PyStr.insert_sorted key (f x) (map f l) =
  map f (PyStr.insert_sorted (fun a => key (f a)) x l).
Proof.
  induction l as [|y l IH]; simpl; [reflexivity |].
  destruct (String.ltb (key (f y)) (key (f x))); simpl; [rewrite IH |]; reflexivity.
Qed.

(** Sorting the images is sorting by the key of the image. *)
Lemma sort_map {A B : Type} (f : A -> B) (key : B -> string) (l : list A) :
  PyStr.sort key (map f l) = map f (PyStr.sort (fun a => key (f a)) l).
Proof.
  induction l as [|x l IH]; simpl; [reflexivity |].
  rewrite IH. apply insert_sorted_map.
Qed.

Lemma insert_sorted_same_key {A : Type} (key : A -> string) (k : string)
    (x : A) (l : list A) :
  filter (fun a => key a =? k) (PyStr.insert_sorted key x l) =
  filter (fun a => key a =? k) (x :: l).
Proof.
  induction l as [|y l IH]; [reflexivity |].
  cbn [PyStr.insert_sorted].
  destruct (String.ltb (key y) (key x)) eqn:Hlt; [| reflexivity].
  cbn [filter] in *. rewrite IH.
  destruct (key x =? k) eqn:Hx; [| reflexivity].
  destruct (key y =? k) eqn:Hy; [| reflexivity].
  apply String.eqb_eq in Hx. apply String.eqb_eq in Hy.
  unfold String.ltb in Hlt. rewrite Hx, Hy in Hlt.
  pose proof (String.compare_antisym k k) as Ha.
  destruct (String.compare k k); simpl in Ha; discriminate.
Qed.

(** The sort is stable: the elements that share a key keep their order. *)
Lemma sort_stable {A : Type} (key : A -> string) (k : string) (l : list A) :
  filter (fun a => key a =? k) (PyStr.sort key l) =
  filter (fun a => key a =? k) l.
Proof.
  induction l as [|x l IH]; [reflexivity |].
  cbn [PyStr.sort fold_right].
  rewrite insert_sorted_same_key. cbn [filter].
  change (fold_right (PyStr.insert_sorted key) [] l) with (PyStr.sort key l).
  rewrite IH. reflexivity.
Qed.

Lemma returned_rest_only (t : list (@Event Fs RegisteredModel Json Info)) :
  forallb returned t = true -> forallb rest_only t = true.
Proof.
  induction t as [|ev t IH]; simpl; [reflexivity |].
  intros H. apply andb_true_iff in H. destruct H as [Hev Ht].
  rewrite (IH Ht), andb_true_r.
  unfold returned in Hev. unfold rest_only.
  destruct (failure ev); [discriminate | reflexivity].
Qed.

(** When its calls return, an iteration adds the entry of its version, if
    the version is selected. *)
Lemma export_version_clean (output_dir : string) (vr : ModelVersion)
    (acc : Acc) (w w' : W) (r : result Acc) (t : list Event) :
  export_version api self output_dir vr acc w = (r, w', t) ->
  forallb returned t = true ->
  exists acc' l,
    r = Ok acc' /\
    output_versions acc' = output_versions acc ++ l /\
    map vr_dict l = filter (selected self) [vr].
Proof.
  intros H Ht.
  change (filter (selected self) [vr])
    with (if selected self vr then [vr] else []).
  run_cases;
    first [ solve [do 2 eexists; (split; [reflexivity |]); split; reflexivity]
          | solve [exists acc, []; rewrite app_nil_r; auto] ].
Qed.

Lemma for_versions_clean (output_dir : string) (vs : list ModelVersion)
    (acc : Acc) (w w' : W) (r : result Acc) (t : list Event) :
  for_versions api self output_dir vs acc w = (r, w', t) ->
  forallb returned t = true ->
  exists acc' l,
    r = Ok acc' /\
    output_versions acc' = output_versions acc ++ l /\
    map vr_dict l = filter (selected self) vs.
Proof.
  revert acc w t. induction vs as [|vr vs IH]; intros acc w t H Ht.
  - inversion H; subst. exists acc, []. rewrite app_nil_r. auto.
  - rewrite for_versions_cons in H.
    destruct (export_version api self output_dir vr acc w) as [[r1 w1] t1] eqn:Hstep.
    assert (Ht1 : forallb returned t1 = true).
    { destruct r1 as [acc1|e].
      - destruct (for_versions api self output_dir vs acc1 w1) as [[r2 w2] t2].
        inversion H; subst. rewrite forallb_app in Ht.
        apply andb_true_iff in Ht. tauto.
      - inversion H; subst. exact Ht. }
    destruct (export_version_clean _ _ _ _ _ _ _ Hstep Ht1)
      as (acc1 & l1 & -> & Ho1 & Hm1).
    destruct (for_versions api self output_dir vs acc1 w1) as [[r2 w2] t2] eqn:Hrest.
    inversion H; subst. clear H.
    rewrite forallb_app in Ht. apply andb_true_iff in Ht. destruct Ht as [_ Ht2].
    destruct (IH _ _ _ Hrest Ht2) as (acc2 & l2 & -> & Ho2 & Hm2).
    exists acc2, (l1 ++ l2). split; [reflexivity |]. split.
    + rewrite Ho2, Ho1, app_assoc. reflexivity.
    + change (vr :: vs) with ([vr] ++ vs).
      rewrite map_app, filter_app, Hm1, Hm2. reflexivity.
Qed.

(** A run without a failed call: the shape of its document. *)
Lemma export_model_clean (model_name output_dir : string) (w : W) :
  let run := export_model api self model_name output_dir w in
  forallb returned (trace run) = true ->
  outcome run = Ok (true, model_name) /\
  exists vs acc mo ci l,
    In (SearchModelVersions ("name='" ++ model_name ++ "'") (Ok vs)) (trace run) /\
    In (WriteJsonFile (PyStr.join output_dir "model.json")
          (document self vs acc (message_to_json api mo) ci) (Ok tt)) (trace run) /\
    output_versions acc = l /\
    map vr_dict l = filter (selected self) vs.
Proof.
  intros run Hall. subst run. rewrite export_model_run in *.
  unfold outcome, trace in *.
  destruct (_export_model api self model_name output_dir w) as [[r w1] t1] eqn:Hrun.
  assert (Hall1 : forallb returned t1 = true).
  { destruct r; simpl in Hall; [exact Hall |].
    rewrite forallb_app in Hall. apply andb_true_iff in Hall. tauto. }
  destruct (_export_model_run _ _ _ _ _ _ _ _ Hrun)
    as [(fs & u & vs & acc & mo & ci & rw & w2 & w3 & tl & Hloop & Ht & Hr)
       | (e & _ & Hsome & _)];
    [| rewrite (returned_rest_only _ Hall1) in Hsome; discriminate].
  subst t1. rewrite !forallb_app in Hall1.
  apply andb_true_iff in Hall1. destruct Hall1 as [_ Hall1].
  apply andb_true_iff in Hall1. destruct Hall1 as [Htl Hpost].
  destruct rw as [[]|e]; [| discriminate]. subst r. simpl.
  split; [reflexivity |].
  destruct (for_versions_clean _ _ _ _ _ _ _ Hloop Htl) as (acc' & l & Hacc & Ho & Hm).
  inversion Hacc; subst acc'. simpl in Ho.
  exists vs, acc, mo, ci, l.
  split; [auto |]. split; [rewrite !in_app_iff; simpl; auto 10 |].
  split; [exact Ho | exact Hm].
Qed.

(** X16: when no call fails, the export is complete: [export_model] returns
    [(true, model_name)], and the output sequence of the document written is
    made of the versions of the registry response that passed the filters,
    each one once, sorted by version identifier as strings;
    [num_dst_versions] is their number. *)
Theorem clean_export_is_complete (model_name output_dir : string) (w : W) :
  let run := export_model api self model_name output_dir w in
  forallb returned (trace run) = true ->
  outcome run = Ok (true, model_name) /\
  exists vs path doc,
    In (SearchModelVersions ("name='" ++ model_name ++ "'") (Ok vs)) (trace run) /\
    In (WriteJsonFile path doc (Ok tt)) (trace run) /\
    map vr_dict (latest_versions doc) =
    PyStr.sort version (filter (selected self) vs) /\
    num_dst_versions (export_info doc) = length (filter (selected self) vs).
Proof.
  intros run Hall.
  destruct (export_model_clean model_name output_dir w Hall)
    as (Hout & vs & acc & mo & ci & l & Hs & Hw & Ho & Hm).
  split; [exact Hout |].
  exists vs, (PyStr.join output_dir "model.json"),
    (document self vs acc (message_to_json api mo) ci).
  split; [exact Hs |]. split; [exact Hw |].
  simpl. rewrite Ho. split.
  - rewrite <- Hm, sort_map. reflexivity.
  - rewrite sort_length, <- Hm, length_map. reflexivity.
Qed.

(** X17: the sort of line 86 is stable.  When no call fails, the entries of
    the output sequence that share a version identifier are in the order in
    which the registry returned their versions. *)
Theorem equal_versions_keep_registry_order (model_name output_dir : string)
    (w : W) (k : string) :
  let run := export_model api self model_name output_dir w in
  forallb returned (trace run) = true ->
  exists vs path doc,
    In (SearchModelVersions ("name='" ++ model_name ++ "'") (Ok vs)) (trace run) /\
    In (WriteJsonFile path doc (Ok tt)) (trace run) /\
    filter (fun vr => version vr =? k) (map vr_dict (latest_versions doc)) =
    filter (fun vr => version vr =? k) (filter (selected self) vs).
Proof.
  intros run Hall.
  destruct (export_model_clean model_name output_dir w Hall)
    as (Hout & vs & acc & mo & ci & l & Hs & Hw & Ho & Hm).
  exists vs, (PyStr.join output_dir "model.json"),
    (document self vs acc (message_to_json api mo) ci).
  split; [exact Hs |]. split; [exact Hw |].
  simpl. rewrite Ho, <- Hm.
  change version_key with (fun a : ExportedVersion => version (vr_dict a)).
  rewrite <- sort_map. apply sort_stable.
Qed.

(** The [Exporting] lines of an iteration are its additions to the
    manifest. *)
Lemma export_version_lines (output_dir : string) (vr : ModelVersion)
    (acc : Acc) (w w' : W) (r : result Acc) (t : list Event) :
  export_version api self output_dir vr acc w = (r, w', t) ->
  exporting_lines t = map dct_of (filter (selected self) [vr]).
Proof.
  intros H.
  change (filter (selected self) [vr])
    with (if selected self vr then [vr] else []).
  run_cases; reflexivity.
Qed.

Lemma exporting_lines_app (t1 t2 : list (@Event Fs RegisteredModel Json Info)) :
  exporting_lines (t1 ++ t2) = exporting_lines t1 ++ exporting_lines t2.
Proof. unfold exporting_lines. apply flat_map_app. Qed.

Lemma for_versions_lines (output_dir : string) (vs : list ModelVersion)
    (acc acc' : Acc) (w w' : W) (t : list Event) :
  for_versions api self output_dir vs acc w = (Ok acc', w', t) ->
  exporting_lines t = map dct_of (filter (selected self) vs).
Proof.
  revert acc w t. induction vs as [|vr vs IH]; intros acc w t H.
  - inversion H; subst. reflexivity.
  - rewrite for_versions_cons in H.
    destruct (export_version api self output_dir vr acc w) as [[[acc1|e] w1] t1] eqn:Hstep;
      [| discriminate].
    destruct (for_versions api self output_dir vs acc1 w1) as [[r2 w2] t2] eqn:Hrest.
    inversion H; subst. clear H.
    rewrite exporting_lines_app, (export_version_lines _ _ _ _ _ _ _ Hstep),
      (IH _ _ _ Hrest).
    change (vr :: vs) with ([vr] ++ vs).
    rewrite filter_app, map_app. reflexivity.
Qed.

(** X18: when [_export_model] returns, the [Exporting: ...] lines it
    printed are the records of its manifest, in the same order: every
    version of the manifest was announced, and nothing else was. *)
Theorem exporting_lines_are_manifest (model_name output_dir : string) (w : W)
    (m : list VersionRecord) :
  let run := _export_model api self model_name output_dir w in
  outcome run = Ok m ->
  exporting_lines (trace run) = m.
Proof.
  intros run. subst run. unfold outcome, trace.
  destruct (_export_model api self model_name output_dir w) as [[r w1] t1] eqn:Hrun.
  simpl. intros ->.
  destruct (_export_model_run _ _ _ _ _ _ _ _ Hrun)
    as [(fs & u & vs & acc & mo & ci & rw & w2 & w3 & tl & Hloop & Ht & Hr)
       | (e & He & _)]; [| discriminate].
  destruct rw as [u'|e]; [| discriminate]. inversion Hr; subst m.
  destruct (for_versions_ok _ _ _ _ _ _ _ _ _ Hloop) as [Hman _].
  subst t1. rewrite !exporting_lines_app, (for_versions_lines _ _ _ _ _ _ _ Hloop).
  simpl. rewrite app_nil_r. simpl in Hman. symmetry. exact Hman.
Qed.

End CleanRuns.

(** ** The command line (lines 156-163) *)

Section Main.

Context {W Fs RegisteredModel Json Info : Type}.
Variable setup : @Setup W.
Variable api : @Api W Fs RegisteredModel Json Info.

Lemma init_pair (a : StagesArg) (v : option (list string)) (er : bool) :
  __init__ a v er = (fst (_normalize_stages a), snd (__init__ a v er)).
Proof.
  unfold __init__. destruct (_normalize_stages a) as [out st]. simpl.
  destruct ((0 <? length st)%nat && (0 <? length (versions_or_empty v))%nat);
    reflexivity.
Qed.

Lemma export_events_app (t1 t2 : list (@CliEvent Fs RegisteredModel Json Info)) :
  export_events (t1 ++ t2) = export_events t1 ++ export_events t2.
Proof. unfold export_events. apply flat_map_app. Qed.

Lemma export_events_exported (t : list (@Event Fs RegisteredModel Json Info)) :
  export_events (map Exported t) = t.
Proof. induction t as [|ev t IH]; simpl; [| rewrite IH]; reflexivity. Qed.

Lemma export_events_constructing (out : list Line) :
  export_events (map (@Constructing Fs RegisteredModel Json Info) out) = [].
Proof. induction out as [|l out IH]; simpl; [| rewrite IH]; reflexivity. Qed.

Ltac main_cases :=
  unfold main, construct, cli_bind, cli_call, cli_print, cli_ret, cli_raise,
    exporting, cli_outcome, cli_trace;
  repeat match goal with
         | |- context [MlflowClient setup ?w] =>
             destruct (MlflowClient setup w) as [[[]|?] ?]
         | |- context [string_to_list setup ?s ?w] =>
             destruct (string_to_list setup s w) as [[?|?] ?]
         | |- context [RunExporter setup ?b ?f ?w] =>
             destruct (RunExporter setup b f w) as [[[]|?] ?]
         end.

Ltac in_cases H :=
  simpl in H; repeat rewrite in_app_iff in H; simpl in H;
  repeat match goal with
         | Hd : _ \/ _ |- _ => destruct Hd
         | Hd : False |- _ => destruct Hd
         end.

Lemma not_in_constructing (out : list Line)
    (ev : @CliEvent Fs RegisteredModel Json Info) :
  In ev (map Constructing out) -> exists l, ev = Constructing l.
Proof.
  intros H. apply in_map_iff in H. destruct H as [l [<- _]]. eauto.
Qed.

Lemma not_in_exported (t : list (@Event Fs RegisteredModel Json Info))
    (ev : @CliEvent Fs RegisteredModel Json Info) :
  In ev (map Exported t) -> exists e, ev = Exported e.
Proof.
  intros H. apply in_map_iff in H. destruct H as [e [<- _]]. eauto.
Qed.

(** X19: with [--stages] given, whatever its value, and a non-empty
    [--versions], [main] ends with an exception before the export starts:
    no call of the export is made.  When the client, the list of notebook
    formats and the run exporter were built, the exception is the
    configuration error of the constructor, which [main] does not catch. *)
Theorem main_conflicting_options (model output_dir : string)
    (export_source_tags : bool) (notebook_formats : string)
    (s : string) (c : ascii) (v : string) (w : W) :
  let run := main setup api model output_dir export_source_tags
               notebook_formats (Some s) (Some (String c v)) w in
  exists e,
    cli_outcome run = Raise e /\
    export_events (cli_trace run) = [] /\
    (forall formats,
       In (NewRunExporter export_source_tags formats (Ok tt)) (cli_trace run) ->
       e = MlflowExportImportException
             (map PyStr.lower (PyStr.split "," s))
             (PyStr.split "," (String c v))).
Proof.
  intros run. subst run.
  assert (Hinit : forall er,
            snd (__init__ (StagesStr s) (Some (PyStr.split "," (String c v))) er) =
            Raise (MlflowExportImportException
                     (map PyStr.lower (PyStr.split "," s))
                     (PyStr.split "," (String c v)))).
  { intros er. rewrite init_outcome, normalized_stages.
    destruct (map PyStr.lower (PyStr.split "," s)) as [|s0 st] eqn:Hs;
      [apply map_eq_nil in Hs; destruct (split_not_nil _ _ Hs) |].
    cbn [versions_or_empty].
    destruct (PyStr.split "," (String c v)) as [|v0 vl] eqn:Hv;
      [destruct (split_not_nil _ _ Hv) | reflexivity]. }
  main_cases; cbn [versions_option stages_option];
    try rewrite init_pair, Hinit; simpl;
    eexists; (split; [reflexivity |]);
    (split; [rewrite ?export_events_app, ?export_events_constructing; reflexivity |]);
    intros formats Hin; in_cases Hin; try discriminate; try reflexivity;
    match goal with
    | Hc : In _ (map Constructing _) |- _ =>
        apply not_in_constructing in Hc; destruct Hc as [? Hc]; discriminate
    end.
Qed.

(** X20: when the two filters do not conflict and the client, the list of
    notebook formats and the run exporter were built, [main] returns
    normally whatever the export did: the result of [export_model] is
    dropped, so a failed export is not reported to the caller.  The export
    is the one of the exporter with the normalized stages, the versions of
    line 161 and [export_run] on. *)
Theorem main_ignores_export_result (model output_dir : string)
    (export_source_tags : bool) (notebook_formats : string)
    (stages_arg versions_arg : option string) (formats : list string) (w : W) :
  let run := main setup api model output_dir export_source_tags
               notebook_formats stages_arg versions_arg w in
  stages_arg = None \/ versions_option versions_arg = [] ->
  In (NewRunExporter export_source_tags formats (Ok tt)) (cli_trace run) ->
  cli_outcome run = Ok tt /\
  exists w1,
    export_events (cli_trace run) =
    trace (export_model api
             {| stages := snd (_normalize_stages (stages_option stages_arg));
                export_run := true;
                versions := versions_option versions_arg |}
             model output_dir w1).
Proof.
  intros run Hone Hin. subst run.
  assert (Hinit : snd (__init__ (stages_option stages_arg)
                         (Some (versions_option versions_arg)) true) =
                  Ok {| stages := snd (_normalize_stages (stages_option stages_arg));
                        export_run := true;
                        versions := versions_option versions_arg |}).
  { rewrite init_outcome. cbn [versions_or_empty].
    destruct Hone as [-> | ->]; simpl; [reflexivity |].
    rewrite andb_false_r. reflexivity. }
  revert Hin. main_cases; try rewrite init_pair, Hinit;
    cbv beta iota zeta; intros Hin;
    try (exfalso; in_cases Hin; discriminate).
  match goal with
  | |- context [export_model api ?self model output_dir ?w1] =>
      pose proof (export_model_run api self model output_dir w1) as Hrun;
      destruct (_export_model api self model output_dir w1) as [[[?|?] ?] ?];
      rewrite Hrun; cbv beta iota zeta; (split; [reflexivity |]);
      exists w1; rewrite Hrun; unfold trace; cbn [fst snd];
      repeat rewrite export_events_app;
      rewrite export_events_constructing, export_events_exported;
      simpl; rewrite ?app_nil_r; reflexivity
  end.
Qed.

End Main.

(** ** The failure that ends an export (lines 42-47) *)

Section FailFast.

Context {W Fs RegisteredModel Json Info : Type}.
Variable api : @Api W Fs RegisteredModel Json Info.
Variable self : ModelExporter.

Ltac break_match :=
  match goal with
  | H : context [match ?x with _ => _ end] |- _ => destruct x eqn:?
  | |- context [match ?x with _ => _ end] => destruct x eqn:?
  end.

Ltac invert_eq :=
  match goal with
  | H : (_, _) = (_, _) |- _ => inversion H; clear H; subst
  | H : Some _ = Some _ |- _ => inversion H; clear H; subst
  | H : Ok _ = Ok _ |- _ => inversion H; clear H; subst
  | H : Raise _ = Raise _ |- _ => inversion H; clear H; subst
  end.

Ltac run_cases :=
  unfold export_version, try_except, try_body, except_rest, bind, call, print, ret in *;
  repeat (first [invert_eq | break_match]; simpl in *; try discriminate).

Ltac export_cases :=
  unfold export_model, _export_model, try_except, bind, call, print, ret in *;
  repeat (first [invert_eq | break_match]; simpl in *; try discriminate).

(** A trace that ends with the call that raised [e]. *)
Ltac ends_with_failure :=
  match goal with
  | |- exists t0 ev, ?t = t0 ++ [ev] /\ _ =>
      first [ exists [] ; eexists; split; [reflexivity |]
            | eexists [_]; eexists; split; [reflexivity |]
            | eexists [_; _]; eexists; split; [reflexivity |]
            | eexists [_; _; _]; eexists; split; [reflexivity |] ]
  end.

(** An iteration that raises ends with a call of the [try] that failed with
    an exception that is not a [RestException]. *)
Lemma export_version_raises (output_dir : string) (vr : ModelVersion)
    (acc : Acc) (w w' : W) (e : exn) (t : list Event) :
  export_version api self output_dir vr acc w = (Raise e, w', t) ->
  exists t0 ev,
    t = t0 ++ [ev] /\ failure ev = Some e /\ in_try ev = true /\
    forall msg, e <> RestException msg.
Proof.
  intros H.
  run_cases; ends_with_failure;
    (split; [reflexivity |]); (split; [reflexivity |]);
    intros ?; discriminate.
Qed.

Lemma for_versions_raises (output_dir : string) (vs : list ModelVersion)
    (acc : Acc) (w w' : W) (e : exn) (t : list Event) :
  for_versions api self output_dir vs acc w = (Raise e, w', t) ->
  exists t0 ev,
    t = t0 ++ [ev] /\ failure ev = Some e /\ in_try ev = true /\
    forall msg, e <> RestException msg.
Proof.
  revert acc w t. induction vs as [|vr vs IH]; intros acc w t H.
  - inversion H.
  - rewrite for_versions_cons in H.
    destruct (export_version api self output_dir vr acc w) as [[[acc1|e1] w1] t1] eqn:Hstep.
    + destruct (for_versions api self output_dir vs acc1 w1) as [[r2 w2] t2] eqn:Hrest.
      inversion H; subst. clear H.
      destruct (IH _ _ _ Hrest) as (t0 & ev & -> & Hrest').
      exists (t1 ++ t0), ev. rewrite app_assoc. auto.
    + inversion H; subst. exact (export_version_raises _ _ _ _ _ _ _ Hstep).
Qed.

(** When [_export_model] raises, the last event of its trace is the call
    that raised. *)
Lemma _export_model_raises (model_name output_dir : string) (w w' : W)
    (e : exn) (t : list Event) :
  _export_model api self model_name output_dir w = (Raise e, w', t) ->
  exists t0 ev,
    t = t0 ++ [ev] /\ failure ev = Some e /\
    (in_try ev = true -> forall msg, e <> RestException msg).
Proof.
  intros H.
  export_cases;
    try match goal with
        | Hl : for_versions _ _ _ _ _ _ = (Raise _, _, _) |- _ =>
            destruct (for_versions_raises _ _ _ _ _ _ _ Hl)
              as (t0 & ev & -> & Hf & Ht & Hn);
            eexists (_ :: _ :: _ :: _ :: t0), ev;
            split; [reflexivity |]; split; [exact Hf |]; intros _; exact Hn
        end.
  all: match goal with
       | |- exists t0 ev, ?a :: ?b :: ?c :: ?d :: (?tl ++ ?post) = _ /\ _ =>
           exists (a :: b :: c :: d :: tl ++ removelast post); eexists;
           split; [simpl; rewrite <- app_assoc; simpl; reflexivity |];
           split; [reflexivity | discriminate]
       | |- exists t0 ev, ?t = _ /\ _ =>
           exists (removelast t); eexists;
           split; [simpl; reflexivity |];
           split; [reflexivity | discriminate]
       end.
Qed.

(** X21: an export that fails stops at the call that failed and reports
    that failure: when [export_model] returns [(false, model_name)], the
    trace ends with a call that raised, followed by the [ERROR:] line for
    the exception of that call; no call is made after it.  If the call was
    one of the [try], the exception is not a [RestException]. *)
Theorem failed_call_is_last_and_reported (model_name output_dir : string)
    (w : W) :
  let run := export_model api self model_name output_dir w in
  outcome run = Ok (false, model_name) ->
  exists t0 ev e,
    trace run = t0 ++ [ev; Printed (Error e)] /\
    failure ev = Some e /\
    (in_try ev = true -> forall msg, e <> RestException msg).
Proof.
  intros run. subst run. rewrite export_model_run. unfold outcome, trace.
  destruct (_export_model api self model_name output_dir w) as [[[m|e] w1] t1] eqn:Hrun;
    simpl; [discriminate |].
  intros _.
  destruct (_export_model_raises _ _ _ _ _ _ Hrun) as (t0 & ev & -> & Hf & Hn).
  exists t0, ev, e. rewrite <- app_assoc. auto.
Qed.

End FailFast.

(** ** The further properties on the scenarios *)

Section MoreScenarios.

Import Scenario.
Import Cases.

Ltac pick_event := vm_compute; repeat (first [left; reflexivity | right]).

Lemma no_export_run_when_disabled_witness :
  export_run no_runs = false /\
  ~ In (ExportRun "r1" "out/r1" (Ok tt)) (trace no_runs_run) /\
  In (GetRun "r1" (Ok (a_run "r1"))) (trace no_runs_run).
Proof.
  split; [reflexivity |]. split; [| pick_event].
  exact (no_export_run_when_disabled plain_api no_runs "M" "out" tt
           "r1" "out/r1" (Ok tt) eq_refl).
Defined.

Lemma export_run_targets_witness :
  In (ExportRun "r1" "/dbfs/models/r1" (Ok tt)) (trace dbfs_run) /\
  exists vs vr,
    In (SearchModelVersions "name='M'" (Ok vs)) (trace dbfs_run) /\
    In vr vs /\ selected production_only vr = true /\
    "r1" = run_id vr /\ "/dbfs/models/r1" = opath "dbfs:/models" "r1".
Proof.
  assert (Hin : In (ExportRun "r1" "/dbfs/models/r1" (Ok tt)) (trace dbfs_run))
    by pick_event.
  split; [exact Hin |].
  exact (export_run_targets (registry two_stages all_runs all_exports (Ok tt))
           production_only "M" "dbfs:/models" tt _ _ _ Hin).
Defined.

Lemma lookups_of_selected_only_witness :
  In (GetRun "r3" (Raise (RestException "RESOURCE_DOES_NOT_EXIST: Run 'r3' not found")))
     (trace deleted_run) /\
  exists vs vr,
    In (SearchModelVersions "name='M'" (Ok vs)) (trace deleted_run) /\
    In vr vs /\ selected all_versions vr = true /\ "r3" = run_id vr.
Proof.
  assert (Hin : In (GetRun "r3" (Raise (RestException
                      "RESOURCE_DOES_NOT_EXIST: Run 'r3' not found")))
                   (trace deleted_run)) by pick_event.
  split; [exact Hin |].
  exact (proj1 (lookups_of_selected_only deleted_api all_versions "M" "out" tt)
           _ _ Hin).
Defined.

Lemma manifest_in_registry_order_witness :
  outcome (_export_model deleted_api all_versions "M" "out" tt) =
  Ok (map dct_of three_versions) /\
  exists vs,
    In (SearchModelVersions "name='M'" (Ok vs))
       (trace (_export_model deleted_api all_versions "M" "out" tt)) /\
    map dct_of three_versions = map dct_of (filter (selected all_versions) vs) /\
    (stages all_versions = [] -> versions all_versions = [] ->
     map dct_of three_versions = map dct_of vs).
Proof.
  assert (H : outcome (_export_model deleted_api all_versions "M" "out" tt) =
              Ok (map dct_of three_versions)) by reflexivity.
  split; [exact H |].
  exact (manifest_in_registry_order deleted_api all_versions "M" "out" tt _ H).
Defined.

Lemma export_succeeds_iff_written_witness :
  outcome (export_model no_dir_api all_versions "M" "out" tt) = Ok (false, "M") /\
  ~ exists path doc,
      In (WriteJsonFile path doc (Ok tt))
         (trace (export_model no_dir_api all_versions "M" "out" tt)).
Proof.
  split; [reflexivity |]. intros Hw.
  apply (export_succeeds_iff_written no_dir_api all_versions "M" "out" tt) in Hw.
  discriminate Hw.
Defined.

Lemma single_write_at_model_json_witness :
  In (WriteJsonFile "out/model.json" deleted_doc (Ok tt)) (trace deleted_run) /\
  "out/model.json" = PyStr.join "out" "model.json" /\
  written (trace deleted_run) = [deleted_doc].
Proof.
  assert (Hin : In (WriteJsonFile "out/model.json" deleted_doc (Ok tt))
                   (trace deleted_run)) by pick_event.
  split; [exact Hin |].
  exact (single_write_at_model_json deleted_api all_versions "M" "out" tt _ _ _ Hin).
Defined.

Lemma summary_counts_agree_witness :
  In (Printed (ExportedVersions 2 2 "M")) (trace deleted_run) /\
  2 = 2 /\ "M" = "M" /\
  exists path doc rr,
    In (WriteJsonFile path doc rr) (trace deleted_run) /\
    num_dst_versions (export_info doc) = 2.
Proof.
  assert (Hin : In (Printed (ExportedVersions 2 2 "M")) (trace deleted_run))
    by pick_event.
  split; [exact Hin |].
  exact (summary_counts_agree deleted_api all_versions "M" "out" tt _ _ _ Hin).
Defined.

Lemma document_metadata_witness :
  In (WriteJsonFile "out/model.json" doc_1_3 (Ok tt)) (trace versions_run) /\
  exists mo ci,
    In (GetRegisteredModel "M" (Ok mo)) (trace versions_run) /\
    In (CreateExportInfo (Ok ci)) (trace versions_run) /\
    registered_model doc_1_3 = message_to_json plain_api mo /\
    created (export_info doc_1_3) = ci /\
    num_target_stages (export_info doc_1_3) = length (stages versions_1_3) /\
    num_target_versions (export_info doc_1_3) = length (versions versions_1_3).
Proof.
  assert (Hin : In (WriteJsonFile "out/model.json" doc_1_3 (Ok tt))
                   (trace versions_run)) by pick_event.
  split; [exact Hin |].
  exact (document_metadata plain_api versions_1_3 "M" "out" tt _ _ _ Hin).
Defined.

Lemma version_filter_excludes_witness :
  versions versions_1_3 <> [] /\
  In (WriteJsonFile "out/model.json" doc_1_3 (Ok tt)) (trace versions_run) /\
  exists vs,
    In (SearchModelVersions "name='M'" (Ok vs)) (trace versions_run) /\
    (forall x, In x (latest_versions doc_1_3) ->
               In (version_key x) (versions versions_1_3)) /\
    num_dst_versions (export_info doc_1_3) <=
    length (filter (fun vr => PyStr.py_in (version vr) (versions versions_1_3)) vs).
Proof.
  assert (Hne : versions versions_1_3 <> []) by discriminate.
  assert (Hin : In (WriteJsonFile "out/model.json" doc_1_3 (Ok tt))
                   (trace versions_run)) by pick_event.
  split; [exact Hne |]. split; [exact Hin |].
  exact (version_filter_excludes plain_api versions_1_3 "M" "out" tt _ _ _ Hne Hin).
Defined.

Lemma clean_export_is_complete_witness :
  forallb returned (trace ten_run) = true /\
  outcome ten_run = Ok (true, "M") /\
  PyStr.sort version (filter (selected all_versions) ten_and_two) =
  [mv "10" "None" "r10"; mv "2" "None" "r2"].
Proof.
  assert (Hall : forallb returned (trace ten_run) = true) by reflexivity.
  split; [exact Hall |]. split; [| reflexivity].
  exact (proj1 (clean_export_is_complete
                  (registry ten_and_two all_runs all_exports (Ok tt))
                  all_versions "M" "out" tt Hall)).
Defined.

Lemma equal_versions_keep_registry_order_witness :
  forallb returned (trace twins_run) = true /\
  In (WriteJsonFile "out/model.json" twins_doc (Ok tt)) (trace twins_run) /\
  exists vs path doc,
    In (SearchModelVersions "name='M'" (Ok vs)) (trace twins_run) /\
    In (WriteJsonFile path doc (Ok tt)) (trace twins_run) /\
    filter (fun vr => version vr =? "1") (map vr_dict (latest_versions doc)) =
    filter (fun vr => version vr =? "1") (filter (selected all_versions) vs).
Proof.
  assert (Hall : forallb returned (trace twins_run) = true) by reflexivity.
  split; [exact Hall |]. split; [pick_event |].
  exact (equal_versions_keep_registry_order
           (registry twins all_runs all_exports (Ok tt))
           all_versions "M" "out" tt "1" Hall).
Defined.

Lemma exporting_lines_are_manifest_witness :
  outcome (_export_model deleted_api all_versions "M" "out" tt) =
  Ok (map dct_of three_versions) /\
  exporting_lines (trace (_export_model deleted_api all_versions "M" "out" tt)) =
  map dct_of three_versions.
Proof.
  assert (H : outcome (_export_model deleted_api all_versions "M" "out" tt) =
              Ok (map dct_of three_versions)) by reflexivity.
  split; [exact H |].
  exact (exporting_lines_are_manifest deleted_api all_versions "M" "out" tt _ H).
Defined.

Lemma main_conflicting_options_witness :
  cli_outcome conflicting_main =
  Raise (MlflowExportImportException ["production"] ["1"; "2"]) /\
  exists e,
    cli_outcome conflicting_main = Raise e /\
    export_events (cli_trace conflicting_main) = [] /\
    (forall formats,
       In (NewRunExporter false formats (Ok tt)) (cli_trace conflicting_main) ->
       e = MlflowExportImportException
             (map PyStr.lower (PyStr.split "," "Production"))
             (PyStr.split "," "1,2")).
Proof.
  split; [reflexivity |].
  exact (main_conflicting_options plain_setup plain_api "M" "out" false ""
           "Production" "1"%char ",2" tt).
Defined.

Lemma main_ignores_export_result_witness :
  (@None string = None \/ versions_option None = []) /\
  In (NewRunExporter false [] (Ok tt)) (cli_trace failing_main) /\
  cli_outcome failing_main = Ok tt /\
  In (Printed (Error (OtherException "[Errno 13] Permission denied: 'out'")))
     (export_events (cli_trace failing_main)).
Proof.
  assert (Hone : @None string = None \/ versions_option None = [])
    by (left; reflexivity).
  assert (Hin : In (NewRunExporter false [] (Ok tt)) (cli_trace failing_main))
    by pick_event.
  split; [exact Hone |]. split; [exact Hin |]. split; [| pick_event].
  exact (proj1 (main_ignores_export_result plain_setup no_dir_api "M" "out"
                  false "" None None [] tt Hone Hin)).
Defined.

Lemma failed_call_is_last_and_reported_witness :
  outcome unwritable_run = Ok (false, "M") /\
  exists t0 ev e,
    trace unwritable_run = t0 ++ [ev; Printed (Error e)] /\
    failure ev = Some e /\
    (in_try ev = true -> forall msg, e <> RestException msg).
Proof.
  assert (H : outcome unwritable_run = Ok (false, "M")) by reflexivity.
  split; [exact H |].
  exact (failed_call_is_last_and_reported
           (registry three_versions all_runs r1_unwritable (Ok tt))
           all_versions "M" "out" tt H).
Defined.

End MoreScenarios.
